(** * BotSmith: the chat-completion pipeline and the GPT function dispatcher

    A shallow embedding of [src/index.ts] (and of [getOpenAiApi] from
    [openai.ts]): the context window of [getChatCompletion], the retry loop
    [retryOnOpenAiError], [GptFunction.validate] and
    [GptFunctionsConfig.dispatch], together with the two JavaScript built-ins
    the code leans on, [JSON.stringify] and [JSON.parse].

    Conventions.
    - A JavaScript string is the list of its UTF-16 code units ([JsString]);
      [String.prototype.length] is [length].
    - A JavaScript value that travels through JSON is a [Json] tree;
      [undefined] is [None] in [JsAny = option Json].
    - A call either returns or throws ([Outcome]); a call that may hand back a
      promise has the three results of [CallOutcome].
    - [console.log] and [console.error] have no effect on any value the
      functions compute and are left out. *)

From Stdlib Require Import ZArith NArith List String Ascii Bool Lia QArith.
From Stdlib Require Import DecimalString.
Import ListNotations.

Set Warnings "-register-all".

Local Open Scope N_scope.
Local Open Scope list_scope.

(* ================================================================== *)
(** ** JavaScript strings *)

Definition JsString := list N.

(** The code units of a literal of the source text (all of them ASCII). *)
Definition js (s : string) : JsString :=
  List.map N_of_ascii (list_ascii_of_string s).

Fixpoint jseqb (a b : JsString) : bool :=
  match a, b with
  | [], [] => true
  | x :: a', y :: b' => (x =? y) && jseqb a' b'
  | _, _ => false
  end.

(** [String(n)] for a non-negative integer. *)
Definition nat_to_js (n : nat) : JsString :=
  js (NilZero.string_of_uint (Nat.to_uint n)).

Definition hex_digit (n : N) : N :=
  if n <? 10 then 48 + n else 87 + n.

(** [\uXXXX] with lowercase hexadecimal digits, as [JSON.stringify] prints it. *)
Definition unicode_escape (c : N) : JsString :=
  [92; 117; hex_digit ((c / 4096) mod 16); hex_digit ((c / 256) mod 16);
   hex_digit ((c / 16) mod 16); hex_digit (c mod 16)].

Definition is_high_surrogate (c : N) : bool := (55296 <=? c) && (c <=? 56319).
Definition is_low_surrogate (c : N) : bool := (56320 <=? c) && (c <=? 57343).

(* ================================================================== *)
(** ** JSON values *)

Inductive Json : Type :=
| JNull
| JBool (b : bool)
| JNumber (text : JsString)
| JString (s : JsString)
| JArray (items : list Json)
| JObject (members : list (JsString * Json)).

(** A number is carried as its decimal text: [JSON_parse] keeps the literal
    it read and [JSON_stringify] prints the text it is given.  No function of
    the program computes with the numbers inside a JSON value. *)

Definition JsAny := option Json.

Definition undefined : JsAny := None.

Fixpoint obj_get (k : JsString) (ms : list (JsString * Json)) : JsAny :=
  match ms with
  | [] => None
  | (k', v) :: r => if jseqb k k' then Some v else obj_get k r
  end.

(** Assignment to a property: an existing key keeps its place. *)
Fixpoint obj_set (k : JsString) (v : Json) (ms : list (JsString * Json))
  : list (JsString * Json) :=
  match ms with
  | [] => [(k, v)]
  | (k', v') :: r => if jseqb k k' then (k, v) :: r else (k', v') :: obj_set k v r
  end.

(* ------------------------------------------------------------------ *)
(** *** JSON.stringify (no replacer, no indentation) *)

Definition escape_code_unit (c : N) : JsString :=
  if c =? 34 then [92; 34]
  else if c =? 92 then js "\\"
  else if c =? 8 then js "\b"
  else if c =? 9 then js "\t"
  else if c =? 10 then js "\n"
  else if c =? 12 then js "\f"
  else if c =? 13 then js "\r"
  else if c <? 32 then unicode_escape c
  else [c].

Fixpoint quote_code_units (s : JsString) : JsString :=
  match s with
  | [] => []
  | c :: r =>
      if is_high_surrogate c then
        match r with
        | d :: r' =>
            if is_low_surrogate d then c :: d :: quote_code_units r'
            else unicode_escape c ++ quote_code_units r
        | [] => unicode_escape c
        end
      else if is_low_surrogate c then unicode_escape c ++ quote_code_units r
      else escape_code_unit c ++ quote_code_units r
  end.

Definition QuoteJSONString (s : JsString) : JsString :=
  34 :: quote_code_units s ++ [34].

Fixpoint JSON_stringify (v : Json) : JsString :=
  match v with
  | JNull => js "null"
  | JBool true => js "true"
  | JBool false => js "false"
  | JNumber text => text
  | JString s => QuoteJSONString s
  | JArray items =>
      js "[" ++
      tl ((fix elements (l : list Json) : JsString :=
             match l with
             | [] => []
             | x :: r => js "," ++ JSON_stringify x ++ elements r
             end) items) ++
      js "]"
  | JObject members =>
      js "{" ++
      tl ((fix properties (l : list (JsString * Json)) : JsString :=
             match l with
             | [] => []
             | (k, x) :: r =>
                 js "," ++ QuoteJSONString k ++ js ":" ++ JSON_stringify x
                 ++ properties r
             end) members) ++
      js "}"
  end.

(** [JSON.stringify(undefined)] is [undefined], not a string. *)
Definition JSON_stringify_any (v : JsAny) : option JsString :=
  option_map JSON_stringify v.

(* ------------------------------------------------------------------ *)
(** *** JSON.parse (no reviver) *)

Definition is_ws (c : N) : bool :=
  (c =? 32) || (c =? 9) || (c =? 10) || (c =? 13).

Fixpoint skip_ws (s : JsString) : JsString :=
  match s with
  | c :: r => if is_ws c then skip_ws r else s
  | [] => []
  end.

Definition is_digit (c : N) : bool := (48 <=? c) && (c <=? 57).

Definition hex_value (c : N) : option N :=
  if is_digit c then Some (c - 48)
  else if (97 <=? c) && (c <=? 102) then Some (c - 87)
  else if (65 <=? c) && (c <=? 70) then Some (c - 55)
  else None.

Definition hex4 (a b c d : N) : option N :=
  match hex_value a, hex_value b, hex_value c, hex_value d with
  | Some x, Some y, Some z, Some w => Some (((x * 16 + y) * 16 + z) * 16 + w)
  | _, _, _, _ => None
  end.

Definition simple_escape (e : N) : option N :=
  if e =? 34 then Some 34            (* quotation mark *)
  else if e =? 92 then Some 92       (* reverse solidus *)
  else if e =? 47 then Some 47       (* solidus *)
  else if e =? 98 then Some 8        (* b *)
  else if e =? 102 then Some 12      (* f *)
  else if e =? 110 then Some 10      (* n *)
  else if e =? 114 then Some 13      (* r *)
  else if e =? 116 then Some 9       (* t *)
  else None.

(** The characters of a string literal after its opening quotation mark:
    the decoded string and what follows the closing quotation mark. *)
Fixpoint parse_chars (s : JsString) (acc : JsString)
  : option (JsString * JsString) :=
  match s with
  | [] => None
  | c :: r =>
      if c =? 34 then Some (rev acc, r)
      else if c =? 92 then
        match r with
        | [] => None
        | e :: r1 =>
            if e =? 117 then
              match r1 with
              | h1 :: h2 :: h3 :: h4 :: r2 =>
                  match hex4 h1 h2 h3 h4 with
                  | Some u => parse_chars r2 (u :: acc)
                  | None => None
                  end
              | _ => None
              end
            else
              match simple_escape e with
              | Some u => parse_chars r1 (u :: acc)
              | None => None
              end
        end
      else if c <? 32 then None
      else parse_chars r (c :: acc)
  end.

Fixpoint take_digits (s : JsString) : JsString * JsString :=
  match s with
  | c :: r =>
      if is_digit c then let (ds, rest) := take_digits r in (c :: ds, rest)
      else ([], s)
  | [] => ([], [])
  end.

(** A number literal: an optional minus sign; an integer part, either a
    single zero or digits that do not start with zero; an optional fraction
    (a point and at least one digit); an optional exponent (e or E, an
    optional sign, at least one digit).  Each part returns its text and the
    rest of the input. *)
Definition number_sign (s : JsString) : JsString * JsString :=
  match s with
  | c :: r => if c =? 45 then ([45], r) else ([], s)
  | [] => ([], s)
  end.

Definition number_int (s : JsString) : option (JsString * JsString) :=
  match s with
  | c :: r =>
      if c =? 48 then Some ([48], r)
      else if is_digit c then Some (take_digits s)
      else None
  | [] => None
  end.

Definition number_frac (s : JsString) : option (JsString * JsString) :=
  match s with
  | c :: r =>
      if c =? 46 then
        match take_digits r with
        | ([], _) => None
        | (d :: ds, rest) => Some (46 :: d :: ds, rest)
        end
      else Some ([], s)
  | [] => Some ([], s)
  end.

Definition number_exp (s : JsString) : option (JsString * JsString) :=
  match s with
  | c :: r =>
      if (c =? 101) || (c =? 69) then
        let (esign, r1) :=
          match r with
          | d :: r' => if (d =? 43) || (d =? 45) then ([d], r') else ([], r)
          | [] => ([], r)
          end in
        match take_digits r1 with
        | ([], _) => None
        | (d :: ds, rest) => Some (c :: esign ++ d :: ds, rest)
        end
      else Some ([], s)
  | [] => Some ([], s)
  end.

Definition parse_number (s : JsString) : option (JsString * JsString) :=
  let (sign, s1) := number_sign s in
  match number_int s1 with
  | None => None
  | Some (int, s2) =>
      match number_frac s2 with
      | None => None
      | Some (frac, s3) =>
          match number_exp s3 with
          | None => None
          | Some (ex, s4) => Some (sign ++ int ++ frac ++ ex, s4)
          end
      end
  end.

(** [expect_word w s]: [s] starts with the keyword [w]; returns the rest. *)
Fixpoint expect_word (w s : JsString) : option JsString :=
  match w, s with
  | [], _ => Some s
  | a :: w', b :: s' => if a =? b then expect_word w' s' else None
  | _ :: _, [] => None
  end.

(** Recursive descent over the grammar of ECMA-404.  Every call spends one
    unit of [fuel]; a value of [n] code units never needs more than
    [2 * n + 1] units, which [JSON_parse] provides (see
    [JSON_parse_fuel_adequate]). *)
Fixpoint parse_value (fuel : nat) (s : JsString) : option (Json * JsString) :=
  match fuel with
  | O => None
  | S fuel' =>
      match skip_ws s with
      | [] => None
      | c :: r =>
          if c =? 123 then                       (* left curly bracket *)
            match skip_ws r with
            | [] => None
            | d :: r' =>
                if d =? 125 then Some (JObject [], r')
                else parse_members fuel' (d :: r') []
            end
          else if c =? 91 then                   (* left square bracket *)
            match skip_ws r with
            | [] => None
            | d :: r' =>
                if d =? 93 then Some (JArray [], r')
                else parse_elements fuel' (d :: r') []
            end
          else if c =? 34 then                   (* quotation mark *)
            match parse_chars r [] with
            | Some (str, r') => Some (JString str, r')
            | None => None
            end
          else if c =? 116 then
            option_map (pair (JBool true)) (expect_word (js "rue") r)
          else if c =? 102 then
            option_map (pair (JBool false)) (expect_word (js "alse") r)
          else if c =? 110 then
            option_map (pair JNull) (expect_word (js "ull") r)
          else
            match parse_number (c :: r) with
            | Some (text, r') => Some (JNumber text, r')
            | None => None
            end
      end
  end

with parse_elements (fuel : nat) (s : JsString) (acc : list Json)
  : option (Json * JsString) :=
  match fuel with
  | O => None
  | S fuel' =>
      match parse_value fuel' s with
      | None => None
      | Some (v, r) =>
          match skip_ws r with
          | [] => None
          | d :: r' =>
              if d =? 44 then parse_elements fuel' r' (acc ++ [v])
              else if d =? 93 then Some (JArray (acc ++ [v]), r')
              else None
          end
      end
  end

with parse_members (fuel : nat) (s : JsString) (acc : list (JsString * Json))
  : option (Json * JsString) :=
  match fuel with
  | O => None
  | S fuel' =>
      match skip_ws s with
      | [] => None
      | q :: r =>
          if q =? 34 then
            match parse_chars r [] with
            | None => None
            | Some (k, r1) =>
                match skip_ws r1 with
                | [] => None
                | colon :: r2 =>
                    if colon =? 58 then
                      match parse_value fuel' r2 with
                      | None => None
                      | Some (v, r3) =>
                          match skip_ws r3 with
                          | [] => None
                          | d :: r4 =>
                              if d =? 44 then
                                parse_members fuel' r4 (obj_set k v acc)
                              else if d =? 125 then
                                Some (JObject (obj_set k v acc), r4)
                              else None
                          end
                      end
                    else None
                end
            end
          else None
      end
  end.

(** [JSON.parse(text)]: [None] stands for the [SyntaxError] it throws. *)
Definition JSON_parse (text : JsString) : option Json :=
  match parse_value (2 * List.length text + 2) text with
  | Some (v, r) =>
      match skip_ws r with
      | [] => Some v
      | _ :: _ => None
      end
  | None => None
  end.

(* ------------------------------------------------------------------ *)
(** *** The operators of the language the code applies to such values *)

(** The mantissa of a number text (the part before an exponent) is zero. *)
Fixpoint mantissa_is_zero (text : JsString) : bool :=
  match text with
  | [] => true
  | c :: r =>
      if (c =? 101) || (c =? 69) then true
      else if is_digit c && negb (c =? 48) then false
      else mantissa_is_zero r
  end.

(** [ToBoolean]. *)
Definition truthy (v : JsAny) : bool :=
  match v with
  | None => false
  | Some JNull => false
  | Some (JBool b) => b
  | Some (JNumber text) => negb (mantissa_is_zero text)
  | Some (JString s) => match s with [] => false | _ :: _ => true end
  | Some (JArray _) => true
  | Some (JObject _) => true
  end.

(** [ToString], as string concatenation and template literals apply it. *)
Fixpoint ToString (v : Json) : JsString :=
  match v with
  | JNull => js "null"
  | JBool true => js "true"
  | JBool false => js "false"
  | JNumber text => text
  | JString s => s
  | JArray items =>
      tl ((fix elements (l : list Json) : JsString :=
             match l with
             | [] => []
             | x :: r =>
                 js "," ++ match x with JNull => [] | _ => ToString x end
                 ++ elements r
             end) items)
  | JObject _ => js "[object Object]"
  end.

Definition ToString_any (v : JsAny) : JsString :=
  match v with
  | None => js "undefined"
  | Some x => ToString x
  end.

(* ================================================================== *)
(** ** Errors, thrown values and the results of calls *)

(** An instance of [Error]: the name of its constructor, its message and
    whatever own properties a library attached to it (axios adds
    [isAxiosError] and [response]). *)
Record ErrorObject : Type := {
  err_name : JsString;
  err_message : JsString;
  err_props : list (JsString * Json)
}.

Definition Error (message : JsString) : ErrorObject :=
  {| err_name := js "Error"; err_message := message; err_props := [] |}.

Definition TypeError (message : JsString) : ErrorObject :=
  {| err_name := js "TypeError"; err_message := message; err_props := [] |}.

(** Anything can be thrown: an instance of [Error]; [undefined] or a value
    that is a JSON tree; or any other value (a BigInt, a function, a symbol,
    an object with a cycle or with a [toJSON] method), which is described by
    the JSON-valued own properties that can be read on it and by what
    [JSON.stringify] does with it: it returns a text or [undefined], or it
    throws. *)
Inductive Thrown : Type :=
| ThrownError (e : ErrorObject)
| ThrownValue (v : JsAny)
| ThrownForeign (props : list (JsString * Json)) (stringify : Stringified)

with Stringified : Type :=
| StringifyReturns (text : option JsString)
| StringifyThrows (t : Thrown).

Inductive Outcome (A : Type) : Type :=
| Return (a : A)
| Throw (t : Thrown).

Arguments Return {A} a.
Arguments Throw {A} t.

Definition bind {A B : Type} (m : Outcome A) (f : A -> Outcome B) : Outcome B :=
  match m with
  | Return a => f a
  | Throw t => Throw t
  end.

Declare Scope js_scope.
Delimit Scope js_scope with js.
Notation "x <- m ;; k" := (bind m (fun x => k))
  (at level 61, m at next level, right associativity) : js_scope.

(** What a call looks like to its caller: a value (returned, or carried by a
    promise that is fulfilled), an exception thrown before the call returns,
    or a promise that is rejected later. *)
Inductive CallOutcome (A : Type) : Type :=
| Returns (a : A)
| ThrowsSync (t : Thrown)
| RejectsAsync (t : Thrown).

Arguments Returns {A} a.
Arguments ThrowsSync {A} t.
Arguments RejectsAsync {A} t.

(** The message V8 gives to a property read on [undefined] or [null]. *)
Definition cannot_read (what key : JsString) : Thrown :=
  ThrownError
    (TypeError (js "Cannot read properties of " ++ what ++ js " (reading '"
                ++ key ++ js "')")).

(** [v.key], for the keys the code reads ([choices], [message], [role],
    [content], [function_call], [isAxiosError], [response], [data], [error]):
    none of them is a built-in member of a string, number, boolean or array. *)
Definition get (v : JsAny) (key : JsString) : Outcome JsAny :=
  match v with
  | None => Throw (cannot_read (js "undefined") key)
  | Some JNull => Throw (cannot_read (js "null") key)
  | Some (JObject members) => Return (obj_get key members)
  | Some _ => Return undefined
  end.

(** [v[0]]. *)
Definition get_index0 (v : JsAny) : Outcome JsAny :=
  match v with
  | None => Throw (cannot_read (js "undefined") (js "0"))
  | Some JNull => Throw (cannot_read (js "null") (js "0"))
  | Some (JObject members) => Return (obj_get (js "0") members)
  | Some (JArray items) => Return (nth_error items 0)
  | Some (JString (c :: _)) => Return (Some (JString [c]))
  | Some _ => Return undefined
  end.

(** A property of a caught value. *)
Definition thrown_get (t : Thrown) (key : JsString) : Outcome JsAny :=
  match t with
  | ThrownError e =>
      if jseqb key (js "message") then Return (Some (JString (err_message e)))
      else if jseqb key (js "name") then Return (Some (JString (err_name e)))
      else Return (obj_get key (err_props e))
  | ThrownValue v => get v key
  | ThrownForeign props _ => Return (obj_get key props)
  end.

(** [a[i]] for an array and an integer index. *)
Definition index {A : Type} (a : list A) (i : Z) : option A :=
  if (i <? 0)%Z then None else nth_error a (Z.to_nat i).

Definition LF : JsString := [10].

(* ================================================================== *)
(** ** The data of the chat API *)

Inductive ChatRole : Type := System | User | Assistant | Function.

Definition role_text (r : ChatRole) : JsString :=
  match r with
  | System => js "system"
  | User => js "user"
  | Assistant => js "assistant"
  | Function => js "function"
  end.

(** [ChatCompletionRequestMessageFunctionCall]: both fields are optional. *)
Record FunctionCall : Type := {
  fc_name : option JsString;
  fc_arguments : option JsString
}.

(** [ChatMessage = ChatCompletionRequestMessage]. *)
Record ChatMessage : Type := {
  role : ChatRole;
  content : option JsString;
  name : option JsString;
  function_call : option FunctionCall
}.

Definition ChatHistory := list ChatMessage.

(** [ChatCompletionFunctions]. *)
Record ChatCompletionFunctions : Type := {
  fn_name : JsString;
  fn_description : option JsString;
  fn_parameters : option Json
}.

(** [CreateChatCompletionRequest], with the fields the code sets.  The
    temperature is carried as the text [JSON.stringify] prints for it. *)
Record CreateChatCompletionRequest : Type := {
  req_model : JsString;
  req_temperature : JsString;
  req_messages : ChatHistory;
  req_functions : option (list ChatCompletionFunctions)
}.

(** A property whose value is [undefined] is not printed. *)
Definition optional (key : JsString) (v : option Json) : list (JsString * Json) :=
  match v with
  | Some x => [(key, x)]
  | None => []
  end.

Definition function_call_to_json (fc : FunctionCall) : Json :=
  JObject (optional (js "name") (option_map JString (fc_name fc))
           ++ optional (js "arguments") (option_map JString (fc_arguments fc))).

Definition message_to_json (m : ChatMessage) : Json :=
  JObject ([(js "role", JString (role_text (role m)))]
           ++ optional (js "content") (option_map JString (content m))
           ++ optional (js "name") (option_map JString (name m))
           ++ optional (js "function_call")
                (option_map function_call_to_json (function_call m))).

Definition functions_entry_to_json (f : ChatCompletionFunctions) : Json :=
  JObject ([(js "name", JString (fn_name f))]
           ++ optional (js "description") (option_map JString (fn_description f))
           ++ optional (js "parameters") (fn_parameters f)).

(** The value of the parameter [functions]: an array or [null]. *)
Definition functions_to_json (fs : option (list ChatCompletionFunctions)) : Json :=
  match fs with
  | Some l => JArray (List.map functions_entry_to_json l)
  | None => JNull
  end.

Definition request_to_json (r : CreateChatCompletionRequest) : Json :=
  JObject ([(js "model", JString (req_model r));
            (js "temperature", JNumber (req_temperature r));
            (js "messages", JArray (List.map message_to_json (req_messages r)))]
           ++ optional (js "functions")
                (option_map (fun l => JArray (List.map functions_entry_to_json l))
                   (req_functions r))).

(** The shape of what [OpenAIApi.createChatCompletion] resolves to: an
    [AxiosResponse], whose body is under [data]. *)
Definition AxiosResponse (data : Json) (status : JsString) (statusText : JsString)
  : JsAny :=
  Some (JObject [(js "data", data);
                 (js "status", JNumber status);
                 (js "statusText", JString statusText);
                 (js "headers", JObject []);
                 (js "config", JObject [])]).

(* ================================================================== *)
(** ** Calls to code that lives outside the functions, and their trace *)

Inductive Event : Type :=
| Invoked (attempt : nat)                       (* [func(...args)] in the retry loop *)
| CalledValidate (func : JsString) (args : Json)   (* [func.validate(args)] *)
| CalledDo (func : JsString) (args : Json)         (* [func.do(chatState, args)] *)
| CalledCreateChatCompletion (request : CreateChatCompletionRequest).

(** A computation: the calls it made, in order, and how it ended. *)
Definition Eff (A : Type) : Type := (list Event * Outcome A)%type.

Definition ret {A : Type} (a : A) : Eff A := ([], Return a).
Definition throw {A : Type} (t : Thrown) : Eff A := ([], Throw t).
Definition lift {A : Type} (o : Outcome A) : Eff A := ([], o).
Definition emit (e : Event) : Eff unit := ([e], Return tt).

Definition ebind {A B : Type} (m : Eff A) (f : A -> Eff B) : Eff B :=
  match m with
  | (tr, Return a) => let (tr', r) := f a in (tr ++ tr', r)
  | (tr, Throw t) => (tr, Throw t)
  end.

Notation "x <~ m ;; k" := (ebind m (fun x => k))
  (at level 61, m at next level, right associativity) : js_scope.
Notation "m ;;; k" := (ebind m (fun _ => k))
  (at level 61, right associativity) : js_scope.

Definition trace {A : Type} (m : Eff A) : list Event := fst m.
Definition outcome {A : Type} (m : Eff A) : Outcome A := snd m.

Local Open Scope js_scope.

(* ================================================================== *)
(** ** retryOnOpenAiError *)

Definition MAX_RETRIES : nat := 5.

(** [func] with its arguments applied: what its [n]-th invocation (counted
    from 0) does, and the texts [`${func}`] and [`${args}`] print. *)
Record Callable : Type := {
  call : nat -> CallOutcome JsAny;
  func_text : JsString;
  args_text : JsString
}.

(** The statements after the loop. *)
Definition escalate (func : Callable) (retries : nat) (err : Thrown) : Thrown :=
  match thrown_get err (js "message") with
  | Throw t => t
  | Return m =>
      ThrownError
        (Error (js "Giving up after " ++ nat_to_js retries ++ js "." ++ LF
                ++ js "func=" ++ func_text func ++ LF
                ++ js "args=" ++ args_text func ++ LF
                ++ js "error=" ++ ToString_any m))
  end.

(** The loop [while (retries < MAX_RETRIES)], by recursion on
    [remaining = MAX_RETRIES - retries].  [return func(...args)] has no
    [await]: an exception thrown by the call is caught, a promise that the
    call returns is handed to the caller as it is, rejected or not. *)
Fixpoint retry_loop (func : Callable) (remaining retries : nat) (err : Thrown)
  : Eff JsAny :=
  match remaining with
  | O => throw (escalate func retries err)
  | S remaining' =>
      emit (Invoked retries) ;;;
      match call func retries with
      | Returns v => ret v
      | RejectsAsync t => throw t
      | ThrowsSync error => retry_loop func remaining' (S retries) error
      end
  end.

Definition retryOnOpenAiError (func : Callable) : Eff JsAny :=
  retry_loop func MAX_RETRIES 0 (ThrownError (Error [])).

(* ================================================================== *)
(** ** GptFunction and GptFunctionsConfig.dispatch *)

(** The value of [chatState] ([any] in the source): the field the code reads. *)
Record ChatState : Type := {
  chatHistory : ChatHistory
}.

(** An instance of a subclass of [GptFunction].  [gf_name] is
    [this.constructor.name].  [ajvValidateFunction] is declared by the class
    and assigned by none of its code: [None] is the value [undefined] it has
    after the constructor has run, [Some g] a function stored in it. *)
Record GptFunction : Type := {
  gf_name : JsString;
  description : JsString;
  parameters : Json;
  isNoOp : bool;
  ajvValidateFunction : option (Json -> Outcome JsAny);
  do : ChatState -> Json -> CallOutcome JsAny
}.

(** [new (class ... extends GptFunction)(description, parameters, isNoOp)],
    as the constructor of the class builds it. *)
Definition new_GptFunction (class_name description : JsString) (parameters : Json)
    (isNoOp : bool) (do : ChatState -> Json -> CallOutcome JsAny) : GptFunction :=
  {| gf_name := class_name; description := description;
     parameters := parameters; isNoOp := isNoOp;
     ajvValidateFunction := None; do := do |}.

Inductive DispatchResult : Type :=
| FunctionCallInvalid (errorMessage : JsString)
| FunctionSucceeded (result : JsAny)
| FunctionThrew (error : ErrorObject).

(** [GptFunction.validate]: the object it returns for invalid arguments, or
    [undefined]. *)
Definition validate (this : GptFunction) (args : Json) : Eff JsAny :=
  emit (CalledValidate (gf_name this) args) ;;;
  match ajvValidateFunction this with
  | None =>
      throw (ThrownError (TypeError (js "this.ajvValidateFunction is not a function")))
  | Some ajv =>
      valid <~ lift (ajv args) ;;
      if negb (truthy valid) then
        ret (Some (JObject
               [(js "type", JString (js "FunctionCallInvalid"));
                (js "errorMessage",
                 JString (js "invalid arguments for function " ++ gf_name this
                          ++ js ":"))]))
      else ret undefined
  end.

(** [new Error(message)], where an [undefined] message leaves it empty. *)
Definition new_Error (message : option JsString) : ErrorObject :=
  match message with
  | Some text => Error text
  | None => Error []
  end.

(** [error instanceof Error ? error : new Error(JSON.stringify(error))]:
    what [JSON.stringify] throws leaves the expression. *)
Definition as_Error (error : Thrown) : Outcome ErrorObject :=
  match error with
  | ThrownError e => Return e
  | ThrownValue v => Return (new_Error (JSON_stringify_any v))
  | ThrownForeign _ (StringifyReturns text) => Return (new_Error text)
  | ThrownForeign _ (StringifyThrows t) => Throw t
  end.

(** [f.name === functionName]. *)
Definition name_is (functionName : option JsString) (f : GptFunction) : bool :=
  match functionName with
  | Some n => jseqb (gf_name f) n
  | None => false
  end.

(** [s || "{}"] for an optional string. *)
Definition or_empty_object (s : option JsString) : JsString :=
  match s with
  | Some (c :: r) => c :: r
  | Some [] => js "{}"
  | None => js "{}"
  end.

Definition template (s : option JsString) : JsString :=
  ToString_any (option_map JString s).

Definition dispatch (functions : list GptFunction) (chatState : ChatState)
  : Eff DispatchResult :=
  let chatHistory := chatHistory chatState in
  let assistantMessage :=
    index chatHistory (Z.of_nat (List.length chatHistory) - 1) in
  match assistantMessage with
  | None => throw (cannot_read (js "undefined") (js "function_call"))
  | Some assistantMessage =>
      match function_call assistantMessage with
      | None => throw (cannot_read (js "undefined") (js "name"))
      | Some call =>
          let functionName := fc_name call in
          let argumentsString := or_empty_object (fc_arguments call) in
          match List.find (name_is functionName) functions with
          | None =>
              ret (FunctionCallInvalid
                     (js "unknown function " ++ template functionName))
          | Some func =>
              match JSON_parse argumentsString with
              | None =>
                  ret (FunctionCallInvalid
                         (js "invalid JSON string for arguments: "
                          ++ argumentsString))
              | Some args =>
                  validationErrorMessage <~ validate func args ;;
                  if truthy validationErrorMessage then
                    ret (FunctionCallInvalid
                           (js "invalid arguments for function "
                            ++ template functionName ++ js ": "
                            ++ ToString_any validationErrorMessage))
                  else if isNoOp func then
                    ret (FunctionSucceeded (Some JNull))
                  else
                    emit (CalledDo (gf_name func) args) ;;;
                    match do func chatState args with
                    | Returns result => ret (FunctionSucceeded result)
                    | ThrowsSync error =>
                        e <~ lift (as_Error error) ;; ret (FunctionThrew e)
                    | RejectsAsync error =>
                        e <~ lift (as_Error error) ;; ret (FunctionThrew e)
                    end
              end
          end
      end
  end.

(* ================================================================== *)
(** ** The provider call and its two wrappers *)

(** [getOpenAiApi().createChatCompletion]: what the awaited call gives for a
    request, a value or an exception ([await] inside [try] makes a rejected
    promise and a thrown exception the same thing). *)
Definition Provider := CreateChatCompletionRequest -> Outcome JsAny.

(** [extendAndThrowOpenAIError] never returns: the value is what it throws. *)
Definition extendAndThrowOpenAIError (error : Thrown)
    (openaiRequest : CreateChatCompletionRequest) : Thrown :=
  let thrown :=
    m <- thrown_get error (js "message") ;;
    let message :=
      match m with
      | None => js "unknown error"
      | Some x => ToString x
      end in
    isAxiosError <- thrown_get error (js "isAxiosError") ;;
    response <- thrown_get error (js "response") ;;
    message <-
      (if truthy isAxiosError
          && match response with None => false | Some _ => true end
       then
         data <- get response (js "data") ;;
         err <- get data (js "error") ;;
         Return (message ++ js ": "
                 ++ match JSON_stringify_any err with
                    | Some text => text
                    | None => js "undefined"
                    end)
       else Return message) ;;
    let message :=
      message ++ LF ++ js "Here was the request:" ++ LF
      ++ JSON_stringify (request_to_json openaiRequest) in
    Throw (A := unit) (ThrownError (Error (js "error calling OpenAI: " ++ message)))
  in
  match thrown with
  | Throw t => t
  | Return _ => ThrownValue undefined
  end.

Definition await_createChatCompletion (provider : Provider)
    (openaiRequest : CreateChatCompletionRequest) : Eff JsAny :=
  emit (CalledCreateChatCompletion openaiRequest) ;;;
  match provider openaiRequest with
  | Return response => ret response
  | Throw error => throw (extendAndThrowOpenAIError error openaiRequest)
  end.

(** The response is falsy on the error path, so it prints the same with and
    without indentation. *)
Definition validateCreateChatCompletionResponse (response : JsAny) : Outcome JsAny :=
  if truthy response then Return response
  else
    Throw (ThrownError (Error
      (js "OpenAI response data validation error: " ++ LF
       ++ js "        ========" ++ LF
       ++ js "        response.data:" ++ LF
       ++ js "        " ++ LF
       ++ js "        "
       ++ match JSON_stringify_any response with
          | Some text => text
          | None => js "undefined"
          end ++ LF
       ++ js "        "))).

(* ================================================================== *)
(** ** getChatCompletion *)

Definition approximateMaxChars (model : JsString) : Outcome Z :=
  if jseqb model (js "gpt-4") then Return (8000 * 4)%Z
  else Throw (ThrownError (Error (js "unknown model: " ++ model))).

Definition FRACTION_OF_MAX_CHARS_TO_USE : Q := (8 # 10)%Q.

(** [x < y] on rationals.  In the source [maxChars] is a binary64 number;
    for the one known model the product [32000 * 0.8] rounds to 25600
    exactly, and the totals compared with it are integers. *)
Definition Qltb (x y : Q) : bool :=
  (Qnum x * QDen y <? Qnum y * QDen x)%Z.

(** [JSON.stringify(m).length] for an element read from the array: for a
    missing element [JSON.stringify] gives [undefined], and reading its
    [length] throws. *)
Definition stringify_length (m : option ChatMessage) : Outcome Z :=
  match m with
  | None => Throw (cannot_read (js "undefined") (js "length"))
  | Some m => Return (Z.of_nat (List.length (JSON_stringify (message_to_json m))))
  end.

(** The loop that walks [startingMessageIndex] down; it returns the final
    [startingMessageIndex] and [totalChars]. *)
Fixpoint window_loop (messages : ChatHistory) (maxChars : Q)
    (startingMessageIndex : nat) (totalChars : Z) : Outcome (nat * Z) :=
  match startingMessageIndex with
  | O => Return (O, totalChars)
  | S previous =>
      chars <- stringify_length (index messages (Z.of_nat previous)) ;;
      if Qltb (inject_Z (totalChars + chars)) maxChars
      then window_loop messages maxChars previous (totalChars + chars)%Z
      else Return (S previous, totalChars)
  end.

(** Lines 339 to 361 for a given budget: the messages of the prompt. *)
Definition promptMessages_for (maxChars : Q) (messages : ChatHistory)
    (systemMessage : ChatMessage) (functions : option (list ChatCompletionFunctions))
  : Outcome ChatHistory :=
  let baseChars :=
    (Z.of_nat (List.length (JSON_stringify (message_to_json systemMessage)))
     + Z.of_nat (List.length (JSON_stringify (functions_to_json functions))))%Z in
  let startingMessageIndex := (Z.of_nat (List.length messages) - 1)%Z in
  last <- stringify_length (index messages startingMessageIndex) ;;
  let totalChars := (baseChars + last)%Z in
  w <- window_loop messages maxChars (Z.to_nat startingMessageIndex) totalChars ;;
  Return (systemMessage :: skipn (fst w) messages).

(** [responseData.choices[0].message]. *)
Definition first_choice_message (responseData : JsAny) : Outcome JsAny :=
  choices <- get responseData (js "choices") ;;
  choice <- get_index0 choices ;;
  get choice (js "message").

(** The object the function returns. *)
Record ChatCompletionResponseMessage : Type := {
  rm_role : JsAny;
  rm_content : JsAny;
  rm_function_call : JsAny
}.

(** [x || ""]. *)
Definition or_empty_string (x : JsAny) : JsAny :=
  if truthy x then x else Some (JString []).

Definition getChatCompletion (provider : Provider)
    (messages : ChatHistory) (systemMessageContent : JsString)
    (model : JsString) (temperature : JsString)
    (functions : option (list ChatCompletionFunctions))
  : Eff ChatCompletionResponseMessage :=
  let systemMessage :=
    {| role := System; content := Some systemMessageContent;
       name := None; function_call := None |} in
  max <~ lift (approximateMaxChars model) ;;
  let maxChars := (inject_Z max * FRACTION_OF_MAX_CHARS_TO_USE)%Q in
  promptMessages <~ lift (promptMessages_for maxChars messages systemMessage functions) ;;
  let openaiRequest :=
    {| req_model := model; req_temperature := temperature;
       req_messages := promptMessages; req_functions := functions |} in
  response <~ await_createChatCompletion provider openaiRequest ;;
  lift (responseData <- validateCreateChatCompletionResponse response ;;
        responseMessage <- first_choice_message responseData ;;
        role <- get responseMessage (js "role") ;;
        content <- get responseMessage (js "content") ;;
        function_call <- get responseMessage (js "function_call") ;;
        Return {| rm_role := role;
                  rm_content := or_empty_string content;
                  rm_function_call := function_call |}).

(* ================================================================== *)
(** ** getCompletionUsingChatModel *)

(** The object the function returns: a role and a content, nothing else. *)
Record CompletionMessage : Type := {
  cm_role : ChatRole;
  cm_content : JsAny
}.

Definition getCompletionUsingChatModel (provider : Provider)
    (systemMessage prompt : JsString) (model : JsString) (temperature : JsString)
  : Eff CompletionMessage :=
  let promptMessages :=
    [ {| role := System; content := Some systemMessage;
         name := None; function_call := None |};
      {| role := User; content := Some prompt;
         name := None; function_call := None |} ] in
  let openaiRequest :=
    {| req_model := model; req_temperature := temperature;
       req_messages := promptMessages; req_functions := None |} in
  response <~ await_createChatCompletion provider openaiRequest ;;
  lift (responseData <- validateCreateChatCompletionResponse response ;;
        responseMessage <- first_choice_message responseData ;;
        content <- get responseMessage (js "content") ;;
        Return {| cm_role := Assistant; cm_content := or_empty_string content |}).

(* ================================================================== *)
(** ** getFunctionResult *)

(** The third caller of the provider: no [try], and the choices are read
    under [response.data]. *)
Definition getFunctionResult (provider : Provider)
    (messages : ChatHistory) (model : option JsString)
    (functions : list ChatCompletionFunctions) : Eff JsAny :=
  let model := match model with Some m => m | None => js "gpt-4" end in
  let openaiRequest :=
    {| req_model := model; req_temperature := js "0";
       req_messages := messages; req_functions := Some functions |} in
  emit (CalledCreateChatCompletion openaiRequest) ;;;
  lift (response <- provider openaiRequest ;;
        data <- get response (js "data") ;;
        get data (js "choices")).

(* ================================================================== *)
(** ** GptFunctionsConfig.formatForGpt *)

(** [enabledFunctionNames] is a [Set<string>]: its members, in any order;
    [has] is membership. *)
Definition has (set : list JsString) (key : JsString) : bool :=
  existsb (jseqb key) set.

Definition formatForGpt (functions : list GptFunction)
    (enabledFunctionNames : list JsString) : list ChatCompletionFunctions :=
  List.map
    (fun func =>
       let isEnabled := has enabledFunctionNames (gf_name func) in
       {| fn_name := gf_name func;
          fn_description :=
            Some (if isEnabled then description func
                  else js "DEPRECATED: " ++ description func);
          fn_parameters := Some (parameters func) |})
    functions.

(* ================================================================== *)
(** ** The debug printers *)

Definition chatMessageDebugOneLine (message : ChatMessage) : JsString :=
  let role := role_text (role message) in
  let content :=
    match content message with
    | Some (c :: r) =>
        firstn 50 (c :: r)
        ++ (if (50 <? List.length (c :: r))%nat then js "..." else [])
    | Some [] => []
    | None => []
    end in
  let name :=
    match name message with
    | Some (c :: r) => c :: r
    | Some [] => []
    | None => []
    end in
  let functionCall :=
    match function_call message with
    | Some call =>
        template (fc_name call) ++ js "(" ++ template (fc_arguments call) ++ js ")"
    | None => []
    end in
  role ++ js " " ++ name ++ js ": " ++ content ++ js " " ++ functionCall.

Definition chatHistoryDebugConcise (history : ChatHistory) : JsString :=
  List.concat (List.map (fun m => chatMessageDebugOneLine m ++ LF) history).

(** [chatMessageDebugOneLine(history[i])]: reading [role] on a missing
    element would throw. *)
Definition debug_line_at (history : ChatHistory) (i : Z) : Outcome JsString :=
  match index history i with
  | Some m => Return (chatMessageDebugOneLine m)
  | None => Throw (cannot_read (js "undefined") (js "role"))
  end.

Definition chatHistoryDebugVeryConcise (history : ChatHistory) : Outcome JsString :=
  let numMessages := List.length history in
  penultimateMessage <-
    (if (1 <? numMessages)%nat
     then debug_line_at history (Z.of_nat numMessages - 2)
     else Return (js "n/a")) ;;
  lastMessage <-
    (if (0 <? numMessages)%nat
     then debug_line_at history (Z.of_nat numMessages - 1)
     else Return (js "n/a")) ;;
  Return (js "Number of messages: " ++ nat_to_js numMessages ++ LF
          ++ js "[n-2]: " ++ penultimateMessage ++ LF
          ++ js "[n-1]: " ++ lastMessage ++ LF).

(* ================================================================== *)
(** ** Measures and reference values used in the statements *)

(** [JSON.stringify(m).length]. *)
Definition message_chars (m : ChatMessage) : Z :=
  Z.of_nat (List.length (JSON_stringify (message_to_json m))).

Fixpoint total_chars (l : ChatHistory) : Z :=
  match l with
  | [] => 0
  | m :: r => message_chars m + total_chars r
  end.

(** [JSON.stringify(functions).length]. *)
Definition functions_chars (functions : option (list ChatCompletionFunctions)) : Z :=
  Z.of_nat (List.length (JSON_stringify (functions_to_json functions))).

Definition system_message (systemMessageContent : JsString) : ChatMessage :=
  {| role := System; content := Some systemMessageContent;
     name := None; function_call := None |}.

Definition user_message (prompt : JsString) : ChatMessage :=
  {| role := User; content := Some prompt; name := None; function_call := None |}.

(** An assistant message that asks for a function call. *)
Definition function_request (functionName arguments : option JsString) : ChatMessage :=
  {| role := Assistant; content := None; name := None;
     function_call := Some {| fc_name := functionName; fc_arguments := arguments |} |}.

(** The request both completion functions build. *)
Definition request_for (model temperature : JsString) (promptMessages : ChatHistory)
    (functions : option (list ChatCompletionFunctions)) : CreateChatCompletionRequest :=
  {| req_model := model; req_temperature := temperature;
     req_messages := promptMessages; req_functions := functions |}.


(** The function of the README and of the specification's scenario. *)
Definition FetchWeatherData : GptFunction :=
  new_GptFunction (js "FetchWeatherData")
    (js "Fetch weather data for a specified location and time")
    (JObject [(js "where", JObject [(js "type", JString (js "string"))]);
              (js "when", JObject [(js "type", JString (js "string"))])])
    false
    (fun _ _ => Returns (Some (JObject [(js "temperature", JString (js "72F"))]))).

Definition weather_arguments : JsString :=
  [123; 34] ++ js "where" ++ [34; 58; 34] ++ js "Chicago" ++ [34; 44; 34]
  ++ js "when" ++ [34; 58; 34] ++ js "today" ++ [34; 125].

Definition weather_chat : ChatState :=
  {| chatHistory :=
       [user_message (js "How's the weather in Chicago today?");
        function_request (Some (js "FetchWeatherData")) (Some weather_arguments)] |}.

(** A choice of a chat completion, and a response body that carries it. *)
Definition one_choice : Json :=
  JObject [(js "message",
            JObject [(js "role", JString (js "assistant"));
                     (js "content", JString (js "4"))])].

Definition one_choice_body : Json :=
  JObject [(js "choices", JArray [one_choice])].

(** A provider that answers every request with that body, wrapped as the
    SDK wraps it. *)
Definition answering_provider : Provider :=
  fun _ => Return (AxiosResponse one_choice_body (js "200") (js "OK")).

(** A callable in the style of the provider call: an [async] function, every
    invocation of which ends in a rejected promise. *)
Definition always_rejecting (error : Thrown) (func_text args_text : JsString)
  : Callable :=
  {| call := fun _ => RejectsAsync error;
     func_text := func_text; args_text := args_text |}.

(** A no-op function whose validator accepts everything; its body counts as
    a failure if it ever runs. *)
Definition noop_function : GptFunction :=
  {| gf_name := js "Done"; description := js "The task is complete";
     parameters := JObject []; isNoOp := true;
     ajvValidateFunction := Some (fun _ => Return (Some (JBool true)));
     do := fun _ _ => ThrowsSync (ThrownError (Error (js "must not run"))) |}.

(** A function with a validator that accepts everything and a body that
    echoes its arguments. *)
Definition echo_function : GptFunction :=
  {| gf_name := js "Echo"; description := js "Echo the arguments";
     parameters := JObject []; isNoOp := false;
     ajvValidateFunction := Some (fun _ => Return (Some (JBool true)));
     do := fun _ args => Returns (Some args) |}.

(** The last message of the chat state carries the function call [call]. *)
Definition requests_call (chatState : ChatState) (call : FunctionCall) : Prop :=
  exists m : ChatMessage,
    index (chatHistory chatState)
      (Z.of_nat (List.length (chatHistory chatState)) - 1) = Some m /\
    function_call m = Some call.

(** How [dispatch] ends once [func.do] has been called. *)
Definition result_of_do (r : CallOutcome JsAny) : Outcome DispatchResult :=
  match r with
  | Returns result => Return (FunctionSucceeded result)
  | ThrowsSync error => e <- as_Error error ;; Return (FunctionThrew e)
  | RejectsAsync error => e <- as_Error error ;; Return (FunctionThrew e)
  end.

(** A chat whose last message asks for [functionName] with [arguments]. *)
Definition chat_requesting (functionName arguments : option JsString) : ChatState :=
  {| chatHistory := [user_message (js "Go on."); function_request functionName arguments] |}.

(** A short conversation. *)
Definition short_history : ChatHistory :=
  [user_message (js "2+2?");
   {| role := Assistant; content := Some (js "4"); name := None;
      function_call := None |};
   user_message (js "And 3+3?")].

(** What [getChatCompletion] makes of the awaited response (lines 377 to 393). *)
Definition read_response_message (response : JsAny)
  : Outcome ChatCompletionResponseMessage :=
  responseData <- validateCreateChatCompletionResponse response ;;
  responseMessage <- first_choice_message responseData ;;
  role <- get responseMessage (js "role") ;;
  content <- get responseMessage (js "content") ;;
  function_call <- get responseMessage (js "function_call") ;;
  Return {| rm_role := role;
            rm_content := or_empty_string content;
            rm_function_call := function_call |}.

(** What [getCompletionUsingChatModel] makes of it (lines 91 to 110). *)
Definition read_completion_message (response : JsAny) : Outcome CompletionMessage :=
  responseData <- validateCreateChatCompletionResponse response ;;
  responseMessage <- first_choice_message responseData ;;
  content <- get responseMessage (js "content") ;;
  Return {| cm_role := Assistant; cm_content := or_empty_string content |}.


(** The line of a message without the part that shows its content. *)
Definition without_content (m : ChatMessage) : ChatMessage :=
  {| role := role m; content := None; name := name m;
     function_call := function_call m |}.

(** A callable every invocation of which throws [error] before it returns. *)
Definition always_throwing (error : nat -> Thrown) (func_text args_text : JsString)
  : Callable :=
  {| call := fun n => ThrowsSync (error n);
     func_text := func_text; args_text := args_text |}.

(** A callable that throws twice and then returns [null]. *)
Definition third_time_lucky : Callable :=
  {| call := fun n =>
       if (n <? 2)%nat then ThrowsSync (ThrownError (Error (js "busy")))
       else Returns (Some JNull);
     func_text := js "f"; args_text := [] |}.

(** A provider that fails every request with a plain [Error]. *)
Definition failing_provider (message : JsString) : Provider :=
  fun _ => Throw (ThrownError (Error message)).

(** A provider that fails the way axios reports an HTTP error: an [Error]
    with [isAxiosError] set and the body of the response under
    [response.data]. *)
Definition axios_error (message : JsString) (payload : Json) : Thrown :=
  ThrownError
    {| err_name := js "Error"; err_message := message;
       err_props :=
         [(js "isAxiosError", JBool true);
          (js "response",
           JObject [(js "data", JObject [(js "error", payload)])])] |}.

(** A provider stub that answers with the body itself, not wrapped. *)
Definition stub_provider (body : Json) : Provider :=
  fun _ => Return (Some body).

(** A function whose validator rejects everything. *)
Definition strict_function : GptFunction :=
  {| gf_name := js "Strict"; description := js "Accepts nothing";
     parameters := JObject []; isNoOp := false;
     ajvValidateFunction := Some (fun _ => Return (Some (JBool false)));
     do := fun _ args => Returns (Some args) |}.

(** A second function named [Echo], whose body fails. *)
Definition echo_impostor : GptFunction :=
  {| gf_name := js "Echo"; description := js "Never reached";
     parameters := JObject []; isNoOp := false;
     ajvValidateFunction := Some (fun _ => Return (Some (JBool true)));
     do := fun _ _ => RejectsAsync (ThrownValue (Some (JString (js "no")))) |}.

(** A history whose first message alone exceeds the budget of gpt-4. *)
Definition long_history : ChatHistory :=
  [user_message (repeat 97 (300 * 100)); user_message (js "Summarize that.")].

(** The catch block of [dispatch] can turn the value into an [Error]: the
    value is an [Error], or [JSON.stringify] does not throw on it. *)
Definition catchable (t : Thrown) : Prop :=
  match t with
  | ThrownForeign _ (StringifyThrows _) => False
  | _ => True
  end.

(** An integer of at most 15 digits, written without fraction or exponent
    and not as a negative zero: the text [Number.prototype.toString] prints
    for the number the literal denotes. *)
Definition plain_integer_text (text : JsString) : bool :=
  let digits :=
    match text with
    | c :: r => if c =? 45 then r else text
    | [] => []
    end in
  match digits with
  | [] => false
  | d :: r =>
      forallb is_digit digits
      && (List.length digits <=? 15)%nat
      && (if d =? 48
          then match r with [] => jseqb text (js "0") | _ :: _ => false end
          else true)
  end.

(** A key made of digits only: an own property [JSON.parse] lists before
    the others, in numeric order. *)
Definition digits_only (key : JsString) : bool :=
  match key with
  | [] => false
  | _ :: _ => forallb is_digit key
  end.

(** [JSON_parse] keeps the text of a number literal and the order in which
    the members of an object are written.  On a text whose numbers are plain
    integers and whose keys are not made of digits only, that is the value
    [JSON.parse] builds. *)
Fixpoint parsed_as_written (v : Json) : bool :=
  match v with
  | JNull => true
  | JBool _ => true
  | JNumber text => plain_integer_text text
  | JString _ => true
  | JArray items =>
      (fix all (l : list Json) : bool :=
         match l with
         | [] => true
         | x :: r => parsed_as_written x && all r
         end) items
  | JObject members =>
      (fix all (l : list (JsString * Json)) : bool :=
         match l with
         | [] => true
         | (k, x) :: r => negb (digits_only k) && parsed_as_written x && all r
         end) members
  end.

(** A function whose body throws a BigInt, which [JSON.stringify] refuses. *)
Definition bigint_thrower : GptFunction :=
  {| gf_name := js "Count"; description := js "Counts";
     parameters := JObject []; isNoOp := false;
     ajvValidateFunction := Some (fun _ => Return (Some (JBool true)));
     do := fun _ _ =>
       ThrowsSync
         (ThrownForeign []
            (StringifyThrows
               (ThrownError
                  (TypeError (js "Do not know how to serialize a BigInt"))))) |}.

(* ================================================================== *)
(** * Properties *)

(** ** Strings, comparisons and array reads *)

Lemma jseqb_eq (a b : JsString) : jseqb a b = true <-> a = b.
Proof.
  revert b; induction a as [|x a IH]; intros [|y b]; simpl;
    try (split; [discriminate | discriminate]); try tauto.
  rewrite andb_true_iff, N.eqb_eq, IH.
  split; [intros [-> ->]; reflexivity | intros H; inversion H; auto].
Qed.

Lemma jseqb_refl (a : JsString) : jseqb a a = true.
Proof. apply jseqb_eq; reflexivity. Qed.

Lemma Qltb_lt (x y : Q) : Qltb x y = true <-> (x < y)%Q.
Proof. unfold Qltb, Qlt. apply Z.ltb_lt. Qed.

Lemma index_of_nat {A : Type} (a : list A) (i : nat) :
  index a (Z.of_nat i) = nth_error a i.
Proof.
  unfold index. destruct (Z.ltb_spec (Z.of_nat i) 0); [lia|].
  now rewrite Nat2Z.id.
Qed.

Lemma index_before_start {A : Type} (a : list A) : index a (-1) = None.
Proof. reflexivity. Qed.

Lemma skipn_nth_cons {A : Type} (a : list A) (i : nat) (x : A) :
  nth_error a i = Some x -> skipn i a = x :: skipn (S i) a.
Proof.
  revert i; induction a as [|y a IH]; intros [|i] H; simpl in *;
    try discriminate.
  - now inversion H.
  - now apply IH.
Qed.

(** ** JSON.parse: the fuel is enough *)

Lemma skip_ws_length (s : JsString) :
  (List.length (skip_ws s) <= List.length s)%nat.
Proof.
  induction s as [|c r IH]; cbn [skip_ws List.length]; [lia|].
  destruct (is_ws c); cbn [List.length]; lia.
Qed.

Lemma parse_chars_length (s acc str r : JsString) :
  parse_chars s acc = Some (str, r) -> (List.length r < List.length s)%nat.
Proof.
  remember (List.length s) as n eqn:Hn.
  assert (Hle : (List.length s <= n)%nat) by lia. clear Hn.
  revert s acc Hle. induction n as [|n IH]; intros s acc Hle H;
    (destruct s as [|c s1]; cbn [parse_chars] in H; [discriminate|]);
    cbn [List.length] in Hle; [lia|].
  destruct (c =? 34); [inversion H; subst; cbn [List.length]; lia|].
  destruct (c =? 92).
  - destruct s1 as [|e s2]; [discriminate|].
    destruct (e =? 117).
    + destruct s2 as [|h1 [|h2 [|h3 [|h4 s3]]]]; try discriminate.
      destruct (hex4 h1 h2 h3 h4); [|discriminate].
      apply IH in H; cbn [List.length] in *; lia.
    + destruct (simple_escape e); [|discriminate].
      apply IH in H; cbn [List.length] in *; lia.
  - destruct (c <? 32); [discriminate|].
    apply IH in H; cbn [List.length] in *; lia.
Qed.

Lemma take_digits_length (s ds r : JsString) :
  take_digits s = (ds, r) ->
  (List.length ds + List.length r = List.length s)%nat.
Proof.
  revert ds r. induction s as [|c s IH]; intros ds r H; cbn [take_digits] in H.
  - inversion H. reflexivity.
  - destruct (is_digit c).
    + destruct (take_digits s) as [ds' r'] eqn:Htd. inversion H; subst.
      specialize (IH _ _ eq_refl). cbn [List.length]. lia.
    + inversion H; subst. reflexivity.
Qed.

Lemma number_sign_length (s sign r : JsString) :
  number_sign s = (sign, r) -> (List.length r <= List.length s)%nat.
Proof.
  unfold number_sign. destruct s as [|c s]; [intros H; inversion H; subst; lia|].
  destruct (c =? 45); intros H; inversion H; subst; cbn [List.length]; lia.
Qed.

Lemma number_int_length (s int r : JsString) :
  number_int s = Some (int, r) -> (List.length r < List.length s)%nat.
Proof.
  unfold number_int. destruct s as [|c s]; [discriminate|].
  destruct (c =? 48); [intros H; inversion H; subst; cbn [List.length]; lia|].
  destruct (is_digit c) eqn:Hd; [|discriminate].
  intros H. inversion H as [Htd]. cbn [take_digits] in Htd. rewrite Hd in Htd.
  destruct (take_digits s) as [ds r'] eqn:Hts. inversion Htd; subst.
  apply take_digits_length in Hts. cbn [List.length]. lia.
Qed.

Lemma number_frac_length (s frac r : JsString) :
  number_frac s = Some (frac, r) -> (List.length r <= List.length s)%nat.
Proof.
  unfold number_frac. destruct s as [|c s]; [intros H; inversion H; subst; lia|].
  destruct (c =? 46); [|intros H; inversion H; subst; lia].
  destruct (take_digits s) as [[|d ds] rest] eqn:Htd; [discriminate|].
  intros H; inversion H; subst.
  apply take_digits_length in Htd. cbn [List.length] in *. lia.
Qed.

Lemma number_exp_length (s ex r : JsString) :
  number_exp s = Some (ex, r) -> (List.length r <= List.length s)%nat.
Proof.
  unfold number_exp. destruct s as [|c s]; [intros H; inversion H; subst; lia|].
  destruct ((c =? 101) || (c =? 69)); [|intros H; inversion H; subst; lia].
  destruct s as [|d s'].
  - cbn. discriminate.
  - destruct ((d =? 43) || (d =? 45)).
    + destruct (take_digits s') as [[|x ds] rest] eqn:Htd; [discriminate|].
      intros H; inversion H; subst.
      apply take_digits_length in Htd. cbn [List.length] in *. lia.
    + destruct (take_digits (d :: s')) as [[|x ds] rest] eqn:Htd; [discriminate|].
      intros H; inversion H; subst.
      apply take_digits_length in Htd. cbn [List.length] in *. lia.
Qed.

Lemma parse_number_length (s text r : JsString) :
  parse_number s = Some (text, r) -> (List.length r < List.length s)%nat.
Proof.
  unfold parse_number.
  destruct (number_sign s) as [sign s1] eqn:Hsign.
  destruct (number_int s1) as [[int s2]|] eqn:Hint; [|discriminate].
  destruct (number_frac s2) as [[frac s3]|] eqn:Hfrac; [|discriminate].
  destruct (number_exp s3) as [[ex s4]|] eqn:Hexp; [|discriminate].
  intros H; inversion H; subst.
  apply number_sign_length in Hsign. apply number_int_length in Hint.
  apply number_frac_length in Hfrac. apply number_exp_length in Hexp. lia.
Qed.

Lemma expect_word_length (w s r : JsString) :
  expect_word w s = Some r -> (List.length r <= List.length s)%nat.
Proof.
  revert s. induction w as [|a w IH]; intros s H; cbn [expect_word] in H.
  - destruct s; inversion H; subst; lia.
  - destruct s as [|b s]; [discriminate|].
    destruct (a =? b); [|discriminate].
    apply IH in H. cbn [List.length]. lia.
Qed.


(** Every successful parse consumes input. *)
Lemma parse_lengths (fuel : nat) :
  (forall (s : JsString) (v : Json) (r : JsString),
      parse_value fuel s = Some (v, r) ->
      (List.length r < List.length s)%nat) /\
  (forall (s : JsString) (acc : list Json) (v : Json) (r : JsString),
      parse_elements fuel s acc = Some (v, r) ->
      (List.length r < List.length s)%nat) /\
  (forall (s : JsString) (acc : list (JsString * Json)) (v : Json) (r : JsString),
      parse_members fuel s acc = Some (v, r) ->
      (List.length r < List.length s)%nat).
Proof.
  induction fuel as [|f (IHv & IHe & IHm)].
  - repeat split; intros; discriminate.
  - split; [|split].
    + intros s v r H. cbn [parse_value] in H.
      pose proof (skip_ws_length s) as Hws.
      destruct (skip_ws s) as [|c s1]; [discriminate|].
      cbn [List.length] in Hws.
      destruct (c =? 123).
      { pose proof (skip_ws_length s1) as Hws1.
        destruct (skip_ws s1) as [|d s2]; [discriminate|].
        cbn [List.length] in Hws1.
        destruct (d =? 125); [inversion H; subst; lia|].
        apply IHm in H. cbn [List.length] in H. lia. }
      destruct (c =? 91).
      { pose proof (skip_ws_length s1) as Hws1.
        destruct (skip_ws s1) as [|d s2]; [discriminate|].
        cbn [List.length] in Hws1.
        destruct (d =? 93); [inversion H; subst; lia|].
        apply IHe in H. cbn [List.length] in H. lia. }
      destruct (c =? 34).
      { destruct (parse_chars s1 []) as [[str r']|] eqn:Hstr; [|discriminate].
        apply parse_chars_length in Hstr. inversion H; subst. lia. }
      destruct (c =? 116).
      { destruct (expect_word (js "rue") s1) as [r'|] eqn:Hw; [|discriminate].
        apply expect_word_length in Hw. inversion H; subst. lia. }
      destruct (c =? 102).
      { destruct (expect_word (js "alse") s1) as [r'|] eqn:Hw; [|discriminate].
        apply expect_word_length in Hw. inversion H; subst. lia. }
      destruct (c =? 110).
      { destruct (expect_word (js "ull") s1) as [r'|] eqn:Hw; [|discriminate].
        apply expect_word_length in Hw. inversion H; subst. lia. }
      destruct (parse_number (c :: s1)) as [[text r']|] eqn:Hnum; [|discriminate].
      apply parse_number_length in Hnum. cbn [List.length] in Hnum.
      inversion H; subst. lia.
    + intros s acc v r H. cbn [parse_elements] in H.
      destruct (parse_value f s) as [[v1 r1]|] eqn:Hv; [|discriminate].
      apply IHv in Hv.
      pose proof (skip_ws_length r1) as Hws.
      destruct (skip_ws r1) as [|d r2]; [discriminate|].
      cbn [List.length] in Hws.
      destruct (d =? 44); [apply IHe in H; lia|].
      destruct (d =? 93); [|discriminate].
      inversion H; subst. lia.
    + intros s acc v r H. cbn [parse_members] in H.
      pose proof (skip_ws_length s) as Hws.
      destruct (skip_ws s) as [|q s1]; [discriminate|].
      cbn [List.length] in Hws.
      destruct (q =? 34); [|discriminate].
      destruct (parse_chars s1 []) as [[k r1]|] eqn:Hk; [|discriminate].
      apply parse_chars_length in Hk.
      pose proof (skip_ws_length r1) as Hws1.
      destruct (skip_ws r1) as [|colon r2]; [discriminate|].
      cbn [List.length] in Hws1.
      destruct (colon =? 58); [|discriminate].
      destruct (parse_value f r2) as [[v1 r3]|] eqn:Hv; [|discriminate].
      apply IHv in Hv.
      pose proof (skip_ws_length r3) as Hws3.
      destruct (skip_ws r3) as [|d r4]; [discriminate|].
      cbn [List.length] in Hws3.
      destruct (d =? 44); [apply IHm in H; lia|].
      destruct (d =? 125); [|discriminate].
      inversion H; subst. lia.
Qed.

(** A parse found with some fuel is found with every fuel above twice the
    length of the input. *)
Lemma parse_adequate (fuel : nat) :
  (forall (s : JsString) (x : Json * JsString),
      parse_value fuel s = Some x ->
      forall f : nat, (2 * List.length s + 1 <= f)%nat ->
                      parse_value f s = Some x) /\
  (forall (s : JsString) (acc : list Json) (x : Json * JsString),
      parse_elements fuel s acc = Some x ->
      forall f : nat, (2 * List.length s + 2 <= f)%nat ->
                      parse_elements f s acc = Some x) /\
  (forall (s : JsString) (acc : list (JsString * Json)) (x : Json * JsString),
      parse_members fuel s acc = Some x ->
      forall f : nat, (2 * List.length s + 2 <= f)%nat ->
                      parse_members f s acc = Some x).
Proof.
  induction fuel as [|f0 (IHv & IHe & IHm)].
  - repeat split; intros; discriminate.
  - destruct (parse_lengths f0) as (Lv & _ & _).
    split; [|split].
    + intros s x H [|f] Hf; [lia|].
      cbn [parse_value] in H |- *.
      pose proof (skip_ws_length s) as Hws.
      destruct (skip_ws s) as [|c s1]; [discriminate|].
      cbn [List.length] in Hws.
      destruct (c =? 123).
      { pose proof (skip_ws_length s1) as Hws1.
        destruct (skip_ws s1) as [|d s2]; [discriminate|].
        cbn [List.length] in Hws1.
        destruct (d =? 125); [exact H|].
        apply IHm; [exact H|]. cbn [List.length]. lia. }
      destruct (c =? 91); [|exact H].
      pose proof (skip_ws_length s1) as Hws1.
      destruct (skip_ws s1) as [|d s2]; [discriminate|].
      cbn [List.length] in Hws1.
      destruct (d =? 93); [exact H|].
      apply IHe; [exact H|]. cbn [List.length]. lia.
    + intros s acc x H [|f] Hf; [lia|].
      cbn [parse_elements] in H |- *.
      destruct (parse_value f0 s) as [[v1 r1]|] eqn:Hv; [|discriminate].
      rewrite (IHv _ _ Hv f) by lia.
      apply Lv in Hv.
      pose proof (skip_ws_length r1) as Hws.
      destruct (skip_ws r1) as [|d r2]; [discriminate|].
      cbn [List.length] in Hws.
      destruct (d =? 44); [|exact H].
      apply IHe; [exact H|]. lia.
    + intros s acc x H [|f] Hf; [lia|].
      cbn [parse_members] in H |- *.
      pose proof (skip_ws_length s) as Hws.
      destruct (skip_ws s) as [|q s1]; [discriminate|].
      cbn [List.length] in Hws.
      destruct (q =? 34); [|discriminate].
      destruct (parse_chars s1 []) as [[k r1]|] eqn:Hk; [|discriminate].
      apply parse_chars_length in Hk.
      pose proof (skip_ws_length r1) as Hws1.
      destruct (skip_ws r1) as [|colon r2]; [discriminate|].
      cbn [List.length] in Hws1.
      destruct (colon =? 58); [|discriminate].
      destruct (parse_value f0 r2) as [[v1 r3]|] eqn:Hv; [|discriminate].
      rewrite (IHv _ _ Hv f) by lia.
      apply Lv in Hv.
      pose proof (skip_ws_length r3) as Hws3.
      destruct (skip_ws r3) as [|d r4]; [discriminate|].
      cbn [List.length] in Hws3.
      destruct (d =? 44); [|exact H].
      apply IHm; [exact H|]. lia.
Qed.

(** [JSON_parse] misses no parse for lack of fuel: whatever any amount of
    fuel finds, the fuel of [JSON_parse] finds. *)
Theorem JSON_parse_fuel_adequate (text : JsString) (fuel : nat)
    (x : Json * JsString) :
  parse_value fuel text = Some x ->
  parse_value (2 * List.length text + 2) text = Some x.
Proof.
  intros H. destruct (parse_adequate fuel) as (Hv & _ & _).
  apply (Hv text x H). lia.
Qed.

(** A text that [JSON_parse] rejects has no parse at all: any value read
    from its start is followed by something other than white space. *)
Corollary JSON_parse_rejects_for_good (text : JsString) :
  JSON_parse text = None ->
  forall (fuel : nat) (v : Json) (r : JsString),
    parse_value fuel text = Some (v, r) -> skip_ws r <> [].
Proof.
  intros Hnone fuel v r H. unfold JSON_parse in Hnone.
  rewrite (JSON_parse_fuel_adequate text fuel (v, r) H) in Hnone.
  destruct (skip_ws r); [discriminate | discriminate].
Qed.

(** ** The trace monad *)

Lemma ebind_lift_return {A B : Type} (a : A) (f : A -> Eff B) :
  ebind (lift (Return a)) f = f a.
Proof. unfold ebind, lift. now destruct (f a). Qed.

Lemma ebind_lift_throw {A B : Type} (t : Thrown) (f : A -> Eff B) :
  ebind (lift (Throw t)) f = throw t.
Proof. reflexivity. Qed.

Lemma ebind_emit {B : Type} (e : Event) (k : Eff B) :
  ebind (emit e) (fun _ => k) = (e :: trace k, outcome k).
Proof. unfold ebind, emit, trace, outcome. now destruct k. Qed.

Lemma trace_await_then_lift {A : Type} (provider : Provider)
    (request : CreateChatCompletionRequest) (k : JsAny -> Outcome A) :
  trace (ebind (await_createChatCompletion provider request)
           (fun response => lift (k response)))
  = [CalledCreateChatCompletion request].
Proof.
  unfold await_createChatCompletion. rewrite ebind_emit.
  destruct (provider request); reflexivity.
Qed.

(** ** The window loop *)

Section Window.

Variable messages : ChatHistory.

Lemma stringify_length_at (i : nat) (m : ChatMessage) :
  nth_error messages i = Some m ->
  stringify_length (index messages (Z.of_nat i)) = Return (message_chars m).
Proof. intros H. now rewrite index_of_nat, H. Qed.

(** The loop keeps [totalChars = baseChars + total of the kept messages],
    stops at an index no greater than where it started, and has either
    not moved or ended under the budget. *)
Lemma window_loop_invariant (maxChars : Q) (baseChars : Z) :
  forall (i : nat) (totalChars : Z),
    (i < List.length messages)%nat ->
    totalChars = (baseChars + total_chars (skipn i messages))%Z ->
    exists start : nat,
      (start <= i)%nat /\
      window_loop messages maxChars i totalChars
      = Return (start, (baseChars + total_chars (skipn start messages))%Z) /\
      (start = i \/
       (inject_Z (baseChars + total_chars (skipn start messages)) < maxChars)%Q).
Proof.
  induction i as [|p IH]; intros totalChars Hi Htotal.
  - exists 0%nat. simpl. subst. auto.
  - assert (Hp : (p < List.length messages)%nat) by lia.
    destruct (nth_error messages p) as [m|] eqn:Hm;
      [|apply nth_error_None in Hm; lia].
    cbn [window_loop]. rewrite (stringify_length_at p m Hm). cbn [bind].
    assert (Hsum : (totalChars + message_chars m
                    = baseChars + total_chars (skipn p messages))%Z).
    { rewrite (skipn_nth_cons _ _ _ Hm), Htotal. cbn [total_chars]. lia. }
    destruct (Qltb (inject_Z (totalChars + message_chars m)) maxChars) eqn:Hlt.
    + destruct (IH (totalChars + message_chars m)%Z Hp Hsum)
        as (start & Hle & Hrun & Hend).
      exists start. split; [lia|]. split; [exact Hrun|].
      right. destruct Hend as [->|Hend]; [|exact Hend].
      rewrite <- Hsum. now apply Qltb_lt.
    + exists (S p). split; [lia|]. split; [now subst|]. now left.
Qed.

(** The loop never moves the index up. *)
Lemma window_loop_start_le (maxChars : Q) :
  forall (i : nat) (totalChars : Z) (start : nat) (total : Z),
    window_loop messages maxChars i totalChars = Return (start, total) ->
    (start <= i)%nat.
Proof.
  induction i as [|p IH]; intros totalChars start total H; cbn [window_loop] in H.
  - inversion H. lia.
  - destruct (stringify_length (index messages (Z.of_nat p))) as [chars|t];
      cbn [bind] in H; [|discriminate].
    destruct (Qltb (inject_Z (totalChars + chars)) maxChars).
    + apply IH in H. lia.
    + inversion H. lia.
Qed.

(** A larger budget stops the loop no later. *)
Lemma window_loop_monotone (B1 B2 : Q) :
  (B1 <= B2)%Q ->
  forall (i : nat) (totalChars : Z) (s1 s2 : nat) (t1 t2 : Z),
    window_loop messages B1 i totalChars = Return (s1, t1) ->
    window_loop messages B2 i totalChars = Return (s2, t2) ->
    (s2 <= s1)%nat.
Proof.
  intros HB. induction i as [|p IH]; intros totalChars s1 s2 t1 t2 H1 H2.
  - cbn [window_loop] in H1, H2. inversion H1; inversion H2; lia.
  - cbn [window_loop] in H1, H2.
    destruct (stringify_length (index messages (Z.of_nat p))) as [chars|t];
      cbn [bind] in H1, H2; [|discriminate].
    destruct (Qltb (inject_Z (totalChars + chars)) B1) eqn:Hlt1.
    + assert (Hlt2 : Qltb (inject_Z (totalChars + chars)) B2 = true).
      { apply Qltb_lt. apply Qltb_lt in Hlt1.
        eapply Qlt_le_trans; eassumption. }
      rewrite Hlt2 in H2. eapply IH; eassumption.
    + destruct (Qltb (inject_Z (totalChars + chars)) B2).
      * apply window_loop_start_le in H2. inversion H1. lia.
      * inversion H1; inversion H2. lia.
Qed.

End Window.

(** ** The context window *)

Lemma latest_message (messages init : ChatHistory) (latest : ChatMessage) :
  messages = init ++ [latest] ->
  index messages (Z.of_nat (List.length messages) - 1) = Some latest /\
  Z.to_nat (Z.of_nat (List.length messages) - 1) = List.length init /\
  skipn (List.length init) messages = [latest] /\
  (List.length init < List.length messages)%nat.
Proof.
  intros ->. rewrite length_app. cbn [List.length].
  replace (Z.of_nat (List.length init + 1) - 1)%Z
    with (Z.of_nat (List.length init)) by lia.
  rewrite index_of_nat, Nat2Z.id, nth_error_app2, Nat.sub_diag by lia.
  repeat split; try lia.
  rewrite skipn_app, skipn_all, Nat.sub_diag. reflexivity.
Qed.

(** What [promptMessages_for] computes, in terms of the loop: the system
    message in front of the messages from the index where the loop stopped. *)
Lemma promptMessages_for_window (maxChars : Q) (messages : ChatHistory)
    (systemMessage : ChatMessage)
    (functions : option (list ChatCompletionFunctions)) :
  messages <> [] ->
  let baseChars := (message_chars systemMessage + functions_chars functions)%Z in
  exists (start : nat) (latest : ChatMessage),
    (start < List.length messages)%nat /\
    nth_error messages (List.length messages - 1) = Some latest /\
    window_loop messages maxChars (List.length messages - 1)
      (baseChars + message_chars latest)
    = Return (start, (baseChars + total_chars (skipn start messages))%Z) /\
    promptMessages_for maxChars messages systemMessage functions
    = Return (systemMessage :: skipn start messages) /\
    (start = (List.length messages - 1)%nat \/
     (inject_Z (baseChars + total_chars (skipn start messages)) < maxChars)%Q).
Proof.
  intros Hne baseChars.
  destruct (exists_last Hne) as (init & latest & Hsplit).
  destruct (latest_message messages init latest Hsplit)
    as (Hlast & Hnat & Hskip & Hlen).
  assert (Hlen' : (List.length messages - 1)%nat = List.length init).
  { rewrite Hsplit, length_app. cbn [List.length]. lia. }
  destruct (window_loop_invariant messages maxChars baseChars
              (List.length init) (baseChars + message_chars latest)%Z Hlen)
    as (start & Hle & Hrun & Hend).
  { rewrite Hskip. cbn [total_chars]. lia. }
  exists start, latest. rewrite Hlen'.
  split; [lia|]. split.
  { rewrite <- index_of_nat, <- Hlen'.
    replace (Z.of_nat (List.length messages - 1))
      with (Z.of_nat (List.length messages) - 1)%Z by lia.
    exact Hlast. }
  split; [exact Hrun|]. split; [|exact Hend].
  unfold promptMessages_for. rewrite Hlast, Hnat. cbn [stringify_length bind].
  fold (message_chars systemMessage) (functions_chars functions)
       (message_chars latest).
  fold baseChars. rewrite Hrun. reflexivity.
Qed.

(** C10: on the empty history [getChatCompletion] fails before it calls the
    provider; for a known model the failure is the [TypeError] of reading
    [length] on the serialization of the missing most recent message, for an
    unknown model it is the error of [approximateMaxChars]. *)
Theorem getChatCompletion_empty_history_fails :
  forall (provider : Provider) (systemMessageContent model temperature : JsString)
         (functions : option (list ChatCompletionFunctions)),
    getChatCompletion provider [] systemMessageContent model temperature functions
    = ([],
       Throw (match approximateMaxChars model with
              | Return _ => cannot_read (js "undefined") (js "length")
              | Throw unknown_model => unknown_model
              end)).
Proof.
  intros. unfold getChatCompletion.
  destruct (approximateMaxChars model) as [max|t]; reflexivity.
Qed.

Lemma suffix_with_latest (messages : ChatHistory) (start : nat) (latest : ChatMessage) :
  (start < List.length messages)%nat ->
  nth_error messages (List.length messages - 1) = Some latest ->
  exists older : ChatHistory,
    skipn start messages = older ++ [latest] /\
    (start = (List.length messages - 1)%nat -> older = []).
Proof.
  intros Hstart Hlatest.
  assert (Hne : messages <> []) by (destruct messages; [simpl in Hstart; lia | discriminate]).
  destruct (exists_last Hne) as (init & latest' & Hsplit).
  assert (Hlen : (List.length messages - 1)%nat = List.length init).
  { rewrite Hsplit, length_app. cbn [List.length]. lia. }
  assert (latest' = latest) as ->.
  { rewrite Hlen, Hsplit, nth_error_app2, Nat.sub_diag in Hlatest by lia.
    now inversion Hlatest. }
  exists (skipn start init). split.
  - rewrite Hsplit, skipn_app.
    replace (start - List.length init)%nat with 0%nat by lia. reflexivity.
  - intros ->. rewrite Hlen. apply skipn_all.
Qed.

(** C2: for a non-empty history and a known model, the one request
    [getChatCompletion] sends carries the system message followed by a
    contiguous suffix [older ++ [latest]] of the history that ends with the
    most recent message; and unless that suffix is the most recent message
    alone, the serialized sizes of the system message, of the function list
    and of the selected messages add up to strictly less than
    [approximateMaxChars(model) * 0.8]. *)
Theorem getChatCompletion_window_fits_budget :
  forall (provider : Provider) (messages : ChatHistory)
         (systemMessageContent model temperature : JsString)
         (functions : option (list ChatCompletionFunctions)) (max : Z),
    messages <> [] ->
    approximateMaxChars model = Return max ->
    exists (dropped older : ChatHistory) (latest : ChatMessage),
      messages = dropped ++ older ++ [latest] /\
      trace (getChatCompletion provider messages systemMessageContent model
               temperature functions)
      = [CalledCreateChatCompletion
           (request_for model temperature
              (system_message systemMessageContent :: older ++ [latest])
              functions)] /\
      (older = [] \/
       (inject_Z (message_chars (system_message systemMessageContent)
                  + functions_chars functions
                  + total_chars (older ++ [latest]))
        < inject_Z max * FRACTION_OF_MAX_CHARS_TO_USE)%Q).
Proof.
  intros provider messages systemMessageContent model temperature functions max
         Hne Hmodel.
  destruct (promptMessages_for_window
              (inject_Z max * FRACTION_OF_MAX_CHARS_TO_USE)%Q messages
              (system_message systemMessageContent) functions Hne)
    as (start & latest & Hstart & Hlatest & _ & Hprompt & Hend).
  destruct (suffix_with_latest messages start latest Hstart Hlatest)
    as (older & Hsuffix & Halone).
  exists (firstn start messages), older, latest.
  split; [now rewrite <- Hsuffix, firstn_skipn|].
  split.
  - unfold getChatCompletion. rewrite Hmodel, ebind_lift_return.
    fold (system_message systemMessageContent).
    rewrite Hprompt, ebind_lift_return, Hsuffix.
    apply trace_await_then_lift.
  - destruct Hend as [Hend|Hend]; [left; auto|].
    right. now rewrite <- Hsuffix.
Qed.

(** C3: a larger budget keeps every message a smaller budget keeps: the
    window under [B2 >= B1] is the window under [B1] with further, older
    messages of the history put in front of it. *)
Theorem window_monotone_in_budget :
  forall (messages : ChatHistory) (systemMessage : ChatMessage)
         (functions : option (list ChatCompletionFunctions)) (B1 B2 : Q),
    messages <> [] ->
    (B1 <= B2)%Q ->
    exists dropped older kept : ChatHistory,
      messages = dropped ++ older ++ kept /\
      promptMessages_for B1 messages systemMessage functions
      = Return (systemMessage :: kept) /\
      promptMessages_for B2 messages systemMessage functions
      = Return (systemMessage :: older ++ kept).
Proof.
  intros messages systemMessage functions B1 B2 Hne HB.
  destruct (promptMessages_for_window B1 messages systemMessage functions Hne)
    as (s1 & latest & Hs1 & Hlatest & Hrun1 & Hprompt1 & _).
  destruct (promptMessages_for_window B2 messages systemMessage functions Hne)
    as (s2 & latest' & Hs2 & Hlatest' & Hrun2 & Hprompt2 & _).
  rewrite Hlatest in Hlatest'. inversion Hlatest'; subst latest'.
  assert (Hle : (s2 <= s1)%nat)
    by (eapply window_loop_monotone; eassumption).
  exists (firstn s2 messages), (firstn (s1 - s2) (skipn s2 messages)),
         (skipn s1 messages).
  assert (Hsplit : skipn s2 messages
                   = firstn (s1 - s2) (skipn s2 messages) ++ skipn s1 messages).
  { rewrite <- (firstn_skipn (s1 - s2) (skipn s2 messages)) at 1.
    rewrite skipn_skipn. replace (s1 - s2 + s2)%nat with s1 by lia.
    reflexivity. }
  split; [now rewrite <- Hsplit, firstn_skipn|].
  split; [exact Hprompt1|]. now rewrite <- Hsplit.
Qed.

Lemma getChatCompletion_window_fits_budget_witness :
  exists (dropped older : ChatHistory) (latest : ChatMessage),
    short_history = dropped ++ older ++ [latest] /\
    trace (getChatCompletion answering_provider short_history
             (js "You are terse.") (js "gpt-4") (js "0") None)
    = [CalledCreateChatCompletion
         (request_for (js "gpt-4") (js "0")
            (system_message (js "You are terse.") :: older ++ [latest]) None)] /\
    (older = [] \/
     (inject_Z (message_chars (system_message (js "You are terse."))
                + functions_chars None + total_chars (older ++ [latest]))
      < inject_Z 32000 * FRACTION_OF_MAX_CHARS_TO_USE)%Q).
Proof.
  apply (getChatCompletion_window_fits_budget answering_provider short_history
           (js "You are terse.") (js "gpt-4") (js "0") None 32000%Z).
  - discriminate.
  - reflexivity.
Defined.

Lemma window_monotone_in_budget_witness :
  exists dropped older kept : ChatHistory,
    short_history = dropped ++ older ++ kept /\
    promptMessages_for (150 # 1) short_history
      (system_message (js "You are terse.")) None
    = Return (system_message (js "You are terse.") :: kept) /\
    promptMessages_for (25600 # 1) short_history
      (system_message (js "You are terse.")) None
    = Return (system_message (js "You are terse.") :: older ++ kept).
Proof.
  apply (window_monotone_in_budget short_history
           (system_message (js "You are terse.")) None (150 # 1) (25600 # 1)).
  - discriminate.
  - unfold Qle; simpl; lia.
Defined.

(** ** Dispatch *)

(** [dispatch] once the last message and its function call have been read. *)
Lemma dispatch_on_call (functions : list GptFunction) (chatState : ChatState)
    (call : FunctionCall) :
  requests_call chatState call ->
  dispatch functions chatState
  = match List.find (name_is (fc_name call)) functions with
    | None =>
        ret (FunctionCallInvalid (js "unknown function " ++ template (fc_name call)))
    | Some func =>
        match JSON_parse (or_empty_object (fc_arguments call)) with
        | None =>
            ret (FunctionCallInvalid
                   (js "invalid JSON string for arguments: "
                    ++ or_empty_object (fc_arguments call)))
        | Some args =>
            (validationErrorMessage <~ validate func args ;;
             if truthy validationErrorMessage then
               ret (FunctionCallInvalid
                      (js "invalid arguments for function "
                       ++ template (fc_name call) ++ js ": "
                       ++ ToString_any validationErrorMessage))
             else if isNoOp func then ret (FunctionSucceeded (Some JNull))
             else
               emit (CalledDo (gf_name func) args) ;;;
               match do func chatState args with
               | Returns result => ret (FunctionSucceeded result)
               | ThrowsSync error =>
                   e <~ lift (as_Error error) ;; ret (FunctionThrew e)
               | RejectsAsync error =>
                   e <~ lift (as_Error error) ;; ret (FunctionThrew e)
               end)
        end
    end.
Proof.
  intros (m & Hm & Hcall). unfold dispatch. rewrite Hm, Hcall. reflexivity.
Qed.

(** [validate] records its call and nothing else. *)
Lemma trace_validate (func : GptFunction) (args : Json) :
  trace (validate func args) = [CalledValidate (gf_name func) args].
Proof.
  unfold validate. rewrite ebind_emit. cbn [trace fst].
  destruct (ajvValidateFunction func) as [ajv|]; [|reflexivity].
  destruct (ajv args) as [valid|t]; [|reflexivity].
  rewrite ebind_lift_return. now destruct (negb (truthy valid)).
Qed.

Lemma validate_split (func : GptFunction) (args : Json) :
  validate func args
  = ([CalledValidate (gf_name func) args], outcome (validate func args)).
Proof.
  rewrite <- trace_validate. unfold trace, outcome.
  now destruct (validate func args).
Qed.

(** The last step of [dispatch]: the call to [do] and what becomes of its
    outcome. *)
Lemma dispatch_do_step (func : GptFunction) (chatState : ChatState) (args : Json) :
  ebind (emit (CalledDo (gf_name func) args))
    (fun _ =>
       match do func chatState args with
       | Returns result => ret (FunctionSucceeded result)
       | ThrowsSync error => ebind (lift (as_Error error)) (fun e => ret (FunctionThrew e))
       | RejectsAsync error => ebind (lift (as_Error error)) (fun e => ret (FunctionThrew e))
       end)
  = ([CalledDo (gf_name func) args], result_of_do (do func chatState args)).
Proof.
  rewrite ebind_emit. unfold result_of_do.
  destruct (do func chatState args) as [result|error|error];
    [reflexivity| |]; destruct (as_Error error); reflexivity.
Qed.

(** If [validate] returns, and whatever the body throws can be turned into
    an [Error], [dispatch] returns one of the three results. *)
Lemma dispatch_returns_when_validate_returns (functions : list GptFunction)
    (chatState : ChatState) (call : FunctionCall) :
  requests_call chatState call ->
  (forall (func : GptFunction) (args : Json),
      List.find (name_is (fc_name call)) functions = Some func ->
      exists v, outcome (validate func args) = Return v) ->
  (forall (func : GptFunction) (args : Json),
      List.find (name_is (fc_name call)) functions = Some func ->
      exists r, result_of_do (do func chatState args) = Return r) ->
  exists r : DispatchResult, outcome (dispatch functions chatState) = Return r.
Proof.
  intros Hcall Hvalid Hbody. rewrite (dispatch_on_call _ _ _ Hcall).
  destruct (List.find _ functions) as [func|] eqn:Hfind; [|eexists; reflexivity].
  destruct (JSON_parse _) as [args|]; [|eexists; reflexivity].
  destruct (Hvalid func args eq_refl) as (v & Hv).
  rewrite validate_split, Hv. cbn [ebind].
  destruct (truthy v); [eexists; reflexivity|].
  destruct (isNoOp func); [eexists; reflexivity|].
  rewrite dispatch_do_step. destruct (Hbody func args eq_refl) as (r & ->).
  eexists; reflexivity.
Qed.

(** C5: a call that resolves to a no-op function, with arguments that parse
    and that [validate] accepts, ends in [FunctionSucceeded] with [null];
    the only call [dispatch] makes is the one to [validate], so the body
    [do] is not invoked. *)
Theorem noop_function_not_executed :
  forall (functions : list GptFunction) (chatState : ChatState)
         (call : FunctionCall) (func : GptFunction) (args : Json),
    requests_call chatState call ->
    List.find (name_is (fc_name call)) functions = Some func ->
    isNoOp func = true ->
    JSON_parse (or_empty_object (fc_arguments call)) = Some args ->
    outcome (validate func args) = Return undefined ->
    dispatch functions chatState
    = ([CalledValidate (gf_name func) args],
       Return (FunctionSucceeded (Some JNull))) /\
    forall (f : JsString) (a : Json),
      ~ In (CalledDo f a) (trace (dispatch functions chatState)).
Proof.
  intros functions chatState call func args Hcall Hfind Hnoop Hparse Hvalid.
  assert (Hrun : dispatch functions chatState
                 = ([CalledValidate (gf_name func) args],
                    Return (FunctionSucceeded (Some JNull)))).
  { rewrite (dispatch_on_call _ _ _ Hcall), Hfind, Hparse.
    rewrite validate_split, Hvalid. cbn [ebind truthy undefined].
    rewrite Hnoop. reflexivity. }
  split; [exact Hrun|].
  intros f a. rewrite Hrun. cbn [trace fst].
  intros [H|[]]. discriminate H.
Qed.

Lemma noop_function_not_executed_witness :
  dispatch [echo_function; noop_function]
    (chat_requesting (Some (js "Done")) (Some (js "{}")))
  = ([CalledValidate (js "Done") (JObject [])],
     Return (FunctionSucceeded (Some JNull))) /\
  forall (f : JsString) (a : Json),
    ~ In (CalledDo f a)
        (trace (dispatch [echo_function; noop_function]
                  (chat_requesting (Some (js "Done")) (Some (js "{}"))))).
Proof.
  apply (noop_function_not_executed [echo_function; noop_function]
           (chat_requesting (Some (js "Done")) (Some (js "{}")))
           {| fc_name := Some (js "Done"); fc_arguments := Some (js "{}") |}
           noop_function (JObject [])).
  - eexists. split; reflexivity.
  - reflexivity.
  - reflexivity.
  - reflexivity.
  - reflexivity.
Defined.

(** An exception that leaves the validator leaves [dispatch]: the call to
    [validate] is outside both [try] blocks. *)
Lemma dispatch_validate_exception_propagates (functions : list GptFunction)
    (chatState : ChatState) (call : FunctionCall) (func : GptFunction)
    (args : Json) (t : Thrown) :
  requests_call chatState call ->
  List.find (name_is (fc_name call)) functions = Some func ->
  JSON_parse (or_empty_object (fc_arguments call)) = Some args ->
  outcome (validate func args) = Throw t ->
  dispatch functions chatState
  = ([CalledValidate (gf_name func) args], Throw t).
Proof.
  intros Hcall Hfind Hparse Hvalid.
  rewrite (dispatch_on_call _ _ _ Hcall), Hfind, Hparse.
  rewrite validate_split, Hvalid. reflexivity.
Qed.

(** A function built by the constructor of [GptFunction] has no validator:
    [validate] throws for every argument value. *)
Lemma validate_throws_without_validator (class_name description : JsString)
    (parameters : Json) (isNoOp : bool)
    (body : ChatState -> Json -> CallOutcome JsAny) (args : Json) :
  outcome (validate (new_GptFunction class_name description parameters isNoOp body)
             args)
  = Throw (ThrownError (TypeError (js "this.ajvValidateFunction is not a function"))).
Proof. reflexivity. Qed.

(** C1 (the code departs from it): on the scenario of the specification,
    the registered function [FetchWeatherData] called with well-formed
    arguments, [dispatch] produces none of the three results; the
    [TypeError] raised inside [validate] leaves [dispatch] as an exception. *)
Theorem dispatch_propagates_validate_exception :
  dispatch [FetchWeatherData] weather_chat
  = ([CalledValidate (js "FetchWeatherData")
        (JObject [(js "where", JString (js "Chicago"));
                  (js "when", JString (js "today"))])],
     Throw (ThrownError
              (TypeError (js "this.ajvValidateFunction is not a function")))) /\
  forall r : DispatchResult,
    outcome (dispatch [FetchWeatherData] weather_chat) <> Return r.
Proof.
  assert (Hrun : dispatch [FetchWeatherData] weather_chat
                 = ([CalledValidate (js "FetchWeatherData")
                       (JObject [(js "where", JString (js "Chicago"));
                                 (js "when", JString (js "today"))])],
                    Throw (ThrownError
                             (TypeError
                                (js "this.ajvValidateFunction is not a function")))))
    by (vm_compute; reflexivity).
  split; [exact Hrun|].
  intros r. rewrite Hrun. discriminate.
Qed.

(** C6 as stated fails: with malformed arguments and a name that is not
    registered, the result reports the unknown function, not the arguments. *)
Lemma malformed_arguments_unknown_function_counterexample :
  JSON_parse (js "not json") = None /\
  dispatch [echo_function]
    (chat_requesting (Some (js "Missing")) (Some (js "not json")))
  = ([], Return (FunctionCallInvalid (js "unknown function Missing"))) /\
  outcome (dispatch [echo_function]
             (chat_requesting (Some (js "Missing")) (Some (js "not json"))))
  <> Return (FunctionCallInvalid
               (js "invalid JSON string for arguments: " ++ js "not json")).
Proof.
  split; [vm_compute; reflexivity|].
  split; [vm_compute; reflexivity|].
  vm_compute. discriminate.
Qed.

(** C6, amended: [dispatch] looks the function up first and parses the
    arguments second, both before validation.  For a non-empty arguments
    string that is not valid JSON it returns [FunctionCallInvalid]: reporting
    the bad arguments string when the named function is registered,
    reporting the unknown function when it is not; no call is made in
    either case, so [validate] is not invoked. *)
Theorem malformed_arguments_rejected_after_lookup :
  forall (functions : list GptFunction) (chatState : ChatState)
         (call : FunctionCall) (arguments : JsString),
    requests_call chatState call ->
    fc_arguments call = Some arguments ->
    arguments <> [] ->
    JSON_parse arguments = None ->
    dispatch functions chatState
    = ([],
       Return (FunctionCallInvalid
                 match List.find (name_is (fc_name call)) functions with
                 | Some _ => js "invalid JSON string for arguments: " ++ arguments
                 | None => js "unknown function " ++ template (fc_name call)
                 end)).
Proof.
  intros functions chatState call arguments Hcall Hargs Hne Hparse.
  rewrite (dispatch_on_call _ _ _ Hcall), Hargs.
  assert (Hsame : or_empty_object (Some arguments) = arguments)
    by (destruct arguments; [contradiction | reflexivity]).
  rewrite Hsame, Hparse.
  destruct (List.find _ functions); reflexivity.
Qed.

Lemma malformed_arguments_rejected_after_lookup_witness :
  dispatch [echo_function]
    (chat_requesting (Some (js "Echo")) (Some (js "not json")))
  = ([],
     Return (FunctionCallInvalid
               match List.find (name_is (Some (js "Echo"))) [echo_function] with
               | Some _ => js "invalid JSON string for arguments: " ++ js "not json"
               | None => js "unknown function " ++ template (Some (js "Echo"))
               end)).
Proof.
  apply (malformed_arguments_rejected_after_lookup [echo_function]
           (chat_requesting (Some (js "Echo")) (Some (js "not json")))
           {| fc_name := Some (js "Echo"); fc_arguments := Some (js "not json") |}
           (js "not json")).
  - eexists. split; reflexivity.
  - reflexivity.
  - discriminate.
  - vm_compute. reflexivity.
Defined.

Lemma or_empty_object_default (arguments : option JsString) :
  arguments = None \/ arguments = Some [] ->
  or_empty_object arguments = js "{}".
Proof. intros [->| ->]; reflexivity. Qed.

Lemma JSON_parse_empty_object : JSON_parse (js "{}") = Some (JObject []).
Proof. vm_compute. reflexivity. Qed.

(** C9: when the function call has no arguments string, or an empty one,
    [dispatch] goes on with the string of an empty object: [validate] is
    called with the empty object; if it accepts and the function is not a
    no-op, [do] is called with the empty object and its outcome decides the
    result; and the result is never the invalid-JSON one. *)
Theorem missing_arguments_default_to_empty_object :
  forall (functions : list GptFunction) (chatState : ChatState)
         (call : FunctionCall) (func : GptFunction),
    requests_call chatState call ->
    fc_arguments call = None \/ fc_arguments call = Some [] ->
    List.find (name_is (fc_name call)) functions = Some func ->
    (exists rest : list Event,
        trace (dispatch functions chatState)
        = CalledValidate (gf_name func) (JObject []) :: rest) /\
    (outcome (validate func (JObject [])) = Return undefined ->
     isNoOp func = false ->
     dispatch functions chatState
     = ([CalledValidate (gf_name func) (JObject []);
         CalledDo (gf_name func) (JObject [])],
        result_of_do (do func chatState (JObject [])))) /\
    (forall text : JsString,
        outcome (dispatch functions chatState)
        <> Return (FunctionCallInvalid
                     (js "invalid JSON string for arguments: " ++ text))).
Proof.
  intros functions chatState call func Hcall Habsent Hfind.
  rewrite (dispatch_on_call _ _ _ Hcall), Hfind,
    (or_empty_object_default _ Habsent), JSON_parse_empty_object.
  rewrite validate_split.
  destruct (outcome (validate func (JObject []))) as [v|t] eqn:Hvalid;
    cbn [ebind].
  - destruct (truthy v) eqn:Htruthy.
    + split; [eexists; reflexivity|].
      split; [intros Hv; inversion Hv; subst v; discriminate Htruthy|].
      intros text. cbn [outcome snd ret app]. intros H.
      inversion H.
    + destruct (isNoOp func) eqn:Hnoop.
      * split; [eexists; reflexivity|].
        split; [discriminate|].
        intros text. cbn. discriminate.
      * rewrite dispatch_do_step.
        split; [eexists; reflexivity|].
        split; [intros _ _; reflexivity|].
        intros text. cbn [app outcome snd]. unfold result_of_do.
        destruct (do func chatState (JObject [])) as [result|error|error];
          [cbn; discriminate| |]; destruct (as_Error error); cbn; discriminate.
  - split; [eexists; reflexivity|].
    split; [discriminate|].
    intros text. cbn. discriminate.
Qed.

Lemma missing_arguments_default_to_empty_object_witness :
  (exists rest : list Event,
      trace (dispatch [echo_function] (chat_requesting (Some (js "Echo")) None))
      = CalledValidate (js "Echo") (JObject []) :: rest) /\
  (outcome (validate echo_function (JObject [])) = Return undefined ->
   isNoOp echo_function = false ->
   dispatch [echo_function] (chat_requesting (Some (js "Echo")) None)
   = ([CalledValidate (js "Echo") (JObject []);
       CalledDo (js "Echo") (JObject [])],
      result_of_do
        (do echo_function (chat_requesting (Some (js "Echo")) None)
           (JObject [])))) /\
  (forall text : JsString,
      outcome (dispatch [echo_function] (chat_requesting (Some (js "Echo")) None))
      <> Return (FunctionCallInvalid
                   (js "invalid JSON string for arguments: " ++ text))).
Proof.
  apply (missing_arguments_default_to_empty_object [echo_function]
           (chat_requesting (Some (js "Echo")) None)
           {| fc_name := Some (js "Echo"); fc_arguments := None |}
           echo_function).
  - eexists. split; reflexivity.
  - left. reflexivity.
  - reflexivity.
Defined.

(** ** The retry loop *)

(** While the call keeps throwing, the loop keeps calling. *)
Lemma retry_loop_all_throw (func : Callable) (errors : nat -> Thrown) :
  (forall n : nat, call func n = ThrowsSync (errors n)) ->
  forall (remaining retries : nat) (err : Thrown),
    retry_loop func remaining retries err
    = (List.map Invoked (seq retries remaining),
       Throw (escalate func (retries + remaining)
                match remaining with
                | O => err
                | S _ => errors (retries + remaining - 1)%nat
                end)).
Proof.
  intros Hthrows. induction remaining as [|k IH]; intros retries err.
  - cbn [retry_loop seq List.map]. now rewrite Nat.add_0_r.
  - cbn [retry_loop seq List.map]. rewrite ebind_emit, Hthrows, IH.
    cbn [trace outcome fst snd].
    replace (S retries + k)%nat with (retries + S k)%nat by lia.
    destruct k; [|reflexivity].
    now replace (retries + 1 - 1)%nat with retries by lia.
Qed.

(** X1: a callable that throws an [Error] on every invocation is called
    [MAX_RETRIES] times, and the error that ends the loop names the count
    and the message of the last error. *)
Lemma retry_exhausted_on_throwing_callable (func : Callable)
    (messages : nat -> JsString) :
  (forall n : nat, call func n = ThrowsSync (ThrownError (Error (messages n)))) ->
  retryOnOpenAiError func
  = ([Invoked 0; Invoked 1; Invoked 2; Invoked 3; Invoked 4],
     Throw (ThrownError
              (Error (js "Giving up after 5." ++ LF
                      ++ js "func=" ++ func_text func ++ LF
                      ++ js "args=" ++ args_text func ++ LF
                      ++ js "error=" ++ messages 4%nat)))).
Proof.
  intros Hthrows. unfold retryOnOpenAiError, MAX_RETRIES.
  rewrite (retry_loop_all_throw func _ Hthrows). reflexivity.
Qed.

(** X2: a value returned after [k < MAX_RETRIES] thrown exceptions is the
    result, after [k + 1] invocations. *)
Lemma retry_returns_after_throws (func : Callable) (k : nat) (v : JsAny) :
  (k < MAX_RETRIES)%nat ->
  (forall n : nat, (n < k)%nat -> exists t, call func n = ThrowsSync t) ->
  call func k = Returns v ->
  retryOnOpenAiError func = (List.map Invoked (seq 0 (S k)), Return v).
Proof.
  intros Hk Hthrows Hreturns. unfold retryOnOpenAiError.
  assert (Hloop : forall (j retries remaining : nat) (err : Thrown),
             (retries + j = k)%nat -> (j < remaining)%nat ->
             retry_loop func remaining retries err
             = (List.map Invoked (seq retries (S j)), Return v)).
  { induction j as [|j IH]; intros retries remaining err Hsum Hrem;
      (destruct remaining as [|remaining]; [lia|]);
      cbn [retry_loop]; rewrite ebind_emit.
    - replace retries with k by lia. rewrite Hreturns. reflexivity.
    - destruct (Hthrows retries) as (t & Ht); [lia|]. rewrite Ht.
      rewrite (IH (S retries) remaining t) by lia. reflexivity. }
  apply Hloop; [reflexivity | exact Hk].
Qed.

(** C4 (the code departs from it): a callable that fails the way an
    [async] function fails, by a rejected promise on every invocation, is
    called once; the rejection reaches the caller as it is, with no retry
    and no aggregated error. *)
Theorem retry_stops_at_first_rejection :
  forall (error : Thrown) (func_text args_text : JsString),
    retryOnOpenAiError (always_rejecting error func_text args_text)
    = ([Invoked 0], Throw error).
Proof. intros. reflexivity. Qed.

(** ** The response of the provider *)

Lemma getChatCompletion_after_window (provider : Provider) (messages : ChatHistory)
    (systemMessageContent model temperature : JsString)
    (functions : option (list ChatCompletionFunctions)) (max : Z)
    (promptMessages : ChatHistory) :
  approximateMaxChars model = Return max ->
  promptMessages_for (inject_Z max * FRACTION_OF_MAX_CHARS_TO_USE)%Q messages
    (system_message systemMessageContent) functions
  = Return promptMessages ->
  getChatCompletion provider messages systemMessageContent model temperature
    functions
  = ebind (await_createChatCompletion provider
             (request_for model temperature promptMessages functions))
      (fun response => lift (read_response_message response)).
Proof.
  intros Hmodel Hprompt. unfold getChatCompletion.
  rewrite Hmodel, ebind_lift_return.
  fold (system_message systemMessageContent).
  rewrite Hprompt, ebind_lift_return. reflexivity.
Qed.

Lemma getCompletionUsingChatModel_unfold (provider : Provider)
    (systemMessage prompt model temperature : JsString) :
  getCompletionUsingChatModel provider systemMessage prompt model temperature
  = ebind (await_createChatCompletion provider
             (request_for model temperature
                [system_message systemMessage; user_message prompt] None))
      (fun response => lift (read_completion_message response)).
Proof. reflexivity. Qed.


(** The SDK's response has no property [choices]: reading [choices[0]] on
    it fails. *)
Lemma read_response_message_of_AxiosResponse (data : Json)
    (status statusText : JsString) :
  read_response_message (AxiosResponse data status statusText)
  = Throw (cannot_read (js "undefined") (js "0")).
Proof. reflexivity. Qed.

(** On an object that has the choices at its top level, the first choice's
    message is returned with [content || ""]. *)
Lemma read_response_message_of_choices (response : JsAny)
    (members : list (JsString * Json)) :
  truthy response = true ->
  first_choice_message response = Return (Some (JObject members)) ->
  read_response_message response
  = Return {| rm_role := obj_get (js "role") members;
              rm_content := or_empty_string (obj_get (js "content") members);
              rm_function_call := obj_get (js "function_call") members |}.
Proof.
  intros Htruthy Hfirst. unfold read_response_message.
  unfold validateCreateChatCompletionResponse. rewrite Htruthy.
  cbn [bind]. rewrite Hfirst. reflexivity.
Qed.

(** C7 (the code departs from it): the provider answers with one choice,
    as the SDK delivers it, under [data] of an [AxiosResponse].
    [getChatCompletion] reads [choices] on the response itself and throws a
    [TypeError] instead of returning the first choice's message;
    [getFunctionResult], which reads [response.data.choices], finds the
    choice in the same response. *)
Theorem getChatCompletion_misreads_sdk_response :
  getChatCompletion answering_provider short_history (js "You are terse.")
    (js "gpt-4") (js "0") None
  = ([CalledCreateChatCompletion
        (request_for (js "gpt-4") (js "0")
           (system_message (js "You are terse.") :: short_history) None)],
     Throw (cannot_read (js "undefined") (js "0"))) /\
  outcome (getFunctionResult answering_provider short_history None [])
  = Return (Some (JArray [one_choice])).
Proof. split; vm_compute; reflexivity. Qed.

(** ** The secondary entry point *)




(* ================================================================== *)
(** * Further properties of the code *)

(** ** More on the retry loop *)

Lemma retry_exhausted_on_throwing_callable_witness :
  retryOnOpenAiError
    (always_throwing (fun _ => ThrownError (Error (js "boom"))) (js "f") [])
  = ([Invoked 0; Invoked 1; Invoked 2; Invoked 3; Invoked 4],
     Throw (ThrownError
              (Error (js "Giving up after 5." ++ LF
                      ++ js "func=" ++ js "f" ++ LF
                      ++ js "args=" ++ [] ++ LF
                      ++ js "error=" ++ js "boom")))).
Proof.
  apply (retry_exhausted_on_throwing_callable
           (always_throwing (fun _ => ThrownError (Error (js "boom"))) (js "f") [])
           (fun _ => js "boom")).
  intros n. reflexivity.
Defined.

Lemma retry_returns_after_throws_witness :
  retryOnOpenAiError third_time_lucky
  = (List.map Invoked (seq 0 3), Return (Some JNull)).
Proof.
  apply (retry_returns_after_throws third_time_lucky 2 (Some JNull)).
  - unfold MAX_RETRIES. lia.
  - intros n Hn. exists (ThrownError (Error (js "busy"))).
    destruct n as [|[|n]]; [reflexivity | reflexivity | lia].
  - reflexivity.
Defined.

Lemma retry_loop_trace (func : Callable) :
  forall (remaining retries : nat) (err : Thrown),
  exists k : nat,
    (k <= remaining)%nat /\
    (remaining = O \/ 1 <= k)%nat /\
    trace (retry_loop func remaining retries err) = List.map Invoked (seq retries k) /\
    (forall v, outcome (retry_loop func remaining retries err) = Return v ->
               (1 <= k)%nat /\ call func (retries + k - 1)%nat = Returns v).
Proof.
  induction remaining as [|remaining IH]; intros retries err.
  - exists 0%nat. cbn [retry_loop].
    split; [lia|]. split; [now left|]. split; [reflexivity|].
    intros v Hv. discriminate Hv.
  - cbn [retry_loop]. rewrite ebind_emit.
    destruct (call func retries) as [v|t|t] eqn:Hcall.
    + exists 1%nat. cbn [trace outcome fst snd seq List.map ret].
      split; [lia|]. split; [right; lia|]. split; [reflexivity|].
      intros v' Hv. inversion Hv; subst. split; [lia|].
      replace (retries + 1 - 1)%nat with retries by lia. exact Hcall.
    + destruct (IH (S retries) t) as (k & Hk & _ & Htrace & Hret).
      exists (S k). cbn [trace outcome fst snd seq List.map].
      split; [lia|]. split; [right; lia|].
      split; [now rewrite <- Htrace|].
      intros v Hv. destruct (Hret v Hv) as (Hk1 & Hcallk).
      split; [lia|]. now replace (retries + S k - 1)%nat with (S retries + k - 1)%nat by lia.
    + exists 1%nat. cbn [trace outcome fst snd seq List.map throw].
      split; [lia|]. split; [right; lia|]. split; [reflexivity|].
      intros v Hv. discriminate Hv.
Qed.

(** X3: whatever the callable does, it is invoked at least once and at most
    [MAX_RETRIES] times, the attempts follow one another without a gap, and
    a value that is returned is the value of the last invocation made. *)
Theorem retry_invocations_bounded :
  forall func : Callable,
  exists k : nat,
    (1 <= k <= MAX_RETRIES)%nat /\
    trace (retryOnOpenAiError func) = List.map Invoked (seq 0 k) /\
    (forall v : JsAny,
        outcome (retryOnOpenAiError func) = Return v ->
        call func (k - 1)%nat = Returns v).
Proof.
  intros func. unfold retryOnOpenAiError.
  destruct (retry_loop_trace func MAX_RETRIES 0 (ThrownError (Error [])))
    as (k & Hk & Hpos & Htrace & Hret).
  exists k. split.
  - destruct Hpos as [H|H]; [discriminate H | lia].
  - split; [exact Htrace|]. intros v Hv. now destruct (Hret v Hv).
Qed.

(** X4: when every invocation throws and the last thrown value is
    [undefined] or [null], the loop is exhausted after [MAX_RETRIES]
    invocations and building the final message fails: the caller gets the
    [TypeError] of reading [message] on that value, not the aggregated
    error. *)
Theorem retry_exhausted_on_nullish_throw :
  forall (func : Callable) (errors : nat -> Thrown),
    (forall n : nat, call func n = ThrowsSync (errors n)) ->
    errors 4%nat = ThrownValue undefined \/ errors 4%nat = ThrownValue (Some JNull) ->
    exists what : JsString,
      retryOnOpenAiError func
      = ([Invoked 0; Invoked 1; Invoked 2; Invoked 3; Invoked 4],
         Throw (cannot_read what (js "message"))) /\
      (what = js "undefined" \/ what = js "null").
Proof.
  intros func errors Hthrows Hlast.
  unfold retryOnOpenAiError, MAX_RETRIES.
  rewrite (retry_loop_all_throw func errors Hthrows).
  cbn [seq List.map Nat.add Nat.sub].
  destruct Hlast as [-> | ->].
  - exists (js "undefined"). split; [reflexivity | now left].
  - exists (js "null"). split; [reflexivity | now right].
Qed.

Lemma retry_exhausted_on_nullish_throw_witness :
  exists what : JsString,
    retryOnOpenAiError (always_throwing (fun _ => ThrownValue undefined) (js "f") [])
    = ([Invoked 0; Invoked 1; Invoked 2; Invoked 3; Invoked 4],
       Throw (cannot_read what (js "message"))) /\
    (what = js "undefined" \/ what = js "null").
Proof.
  apply (retry_exhausted_on_nullish_throw
           (always_throwing (fun _ => ThrownValue undefined) (js "f") [])
           (fun _ => ThrownValue undefined)).
  - intros n. reflexivity.
  - left. reflexivity.
Defined.

(** ** More on the context window *)

Lemma message_chars_nonneg (m : ChatMessage) : (0 <= message_chars m)%Z.
Proof. unfold message_chars. lia. Qed.

Lemma total_chars_nonneg (l : ChatHistory) : (0 <= total_chars l)%Z.
Proof.
  induction l as [|m l IH]; cbn [total_chars]; [lia|].
  pose proof (message_chars_nonneg m). lia.
Qed.

Lemma total_chars_app (l1 l2 : ChatHistory) :
  total_chars (l1 ++ l2) = (total_chars l1 + total_chars l2)%Z.
Proof.
  induction l1 as [|m l1 IH]; cbn [total_chars app]; [lia|]. rewrite IH. lia.
Qed.

(** Where the loop stops above index 0, the message just below did not fit. *)
Lemma window_loop_stops_when_full (messages : ChatHistory) (maxChars : Q) :
  forall (i : nat) (totalChars : Z) (start : nat) (total : Z),
    (i < List.length messages)%nat ->
    window_loop messages maxChars i totalChars = Return (start, total) ->
    forall (p : nat) (m : ChatMessage),
      start = S p ->
      nth_error messages p = Some m ->
      (maxChars <= inject_Z (total + message_chars m))%Q.
Proof.
  induction i as [|q IH]; intros totalChars start total Hi Hrun p m Hstart Hm;
    cbn [window_loop] in Hrun.
  - inversion Hrun. lia.
  - destruct (nth_error messages q) as [mq|] eqn:Hq;
      [|apply nth_error_None in Hq; lia].
    rewrite (stringify_length_at messages q mq Hq) in Hrun. cbn [bind] in Hrun.
    destruct (Qltb (inject_Z (totalChars + message_chars mq)) maxChars) eqn:Hlt.
    + eapply IH; try eassumption. lia.
    + inversion Hrun; subst. inversion H0; subst p.
      rewrite Hq in Hm. inversion Hm; subst mq.
      apply Qnot_lt_le. intros Habs. apply Qltb_lt in Habs. congruence.
Qed.

(** The window in terms of the history: kept messages, dropped messages, and
    why the last dropped message was dropped. *)
Lemma promptMessages_for_maximal (maxChars : Q) (messages : ChatHistory)
    (systemMessage : ChatMessage)
    (functions : option (list ChatCompletionFunctions)) :
  messages <> [] ->
  exists dropped kept : ChatHistory,
    messages = dropped ++ kept /\
    kept <> [] /\
    promptMessages_for maxChars messages systemMessage functions
    = Return (systemMessage :: kept) /\
    forall (earlier : ChatHistory) (m : ChatMessage),
      dropped = earlier ++ [m] ->
      (maxChars <= inject_Z (message_chars systemMessage + functions_chars functions
                             + (message_chars m + total_chars kept)))%Q.
Proof.
  intros Hne.
  destruct (promptMessages_for_window maxChars messages systemMessage functions Hne)
    as (start & latest & Hstart & Hlatest & Hrun & Hprompt & _).
  exists (firstn start messages), (skipn start messages).
  split; [now rewrite firstn_skipn|].
  split.
  { intros Hnil. apply (f_equal (@List.length _)) in Hnil.
    rewrite length_skipn in Hnil. cbn [List.length] in Hnil. lia. }
  split; [exact Hprompt|].
  intros earlier m Hdropped.
  assert (Hlen : start = S (List.length earlier)).
  { apply (f_equal (@List.length _)) in Hdropped.
    rewrite length_firstn, length_app in Hdropped. cbn [List.length] in Hdropped.
    lia. }
  assert (Hm : nth_error messages (List.length earlier) = Some m).
  { rewrite <- (firstn_skipn start messages), Hdropped.
    rewrite <- app_assoc, nth_error_app2, Nat.sub_diag by lia. reflexivity. }
  assert (Hi : (List.length messages - 1 < List.length messages)%nat) by lia.
  pose proof (window_loop_stops_when_full messages maxChars _ _ _ _
                Hi Hrun (List.length earlier) m Hlen Hm) as Hfull.
  now replace (message_chars systemMessage + functions_chars functions
               + (message_chars m + total_chars (skipn start messages)))%Z
    with (message_chars systemMessage + functions_chars functions
          + total_chars (skipn start messages) + message_chars m)%Z by lia.
Qed.

Lemma getChatCompletion_trace (provider : Provider) (messages : ChatHistory)
    (systemMessageContent model temperature : JsString)
    (functions : option (list ChatCompletionFunctions)) (max : Z)
    (promptMessages : ChatHistory) :
  approximateMaxChars model = Return max ->
  promptMessages_for (inject_Z max * FRACTION_OF_MAX_CHARS_TO_USE)%Q messages
    (system_message systemMessageContent) functions
  = Return promptMessages ->
  trace (getChatCompletion provider messages systemMessageContent model
           temperature functions)
  = [CalledCreateChatCompletion
       (request_for model temperature promptMessages functions)].
Proof.
  intros Hmodel Hprompt.
  rewrite (getChatCompletion_after_window _ _ _ _ _ _ _ _ Hmodel Hprompt).
  apply trace_await_then_lift.
Qed.

(** X5: the window is as large as the budget allows.  The messages left
    out are a prefix of the history, and if any is left out, then the newest
    of them together with the kept messages, the system message and the
    function list reaches or exceeds [maxChars]. *)
Theorem window_drops_only_what_does_not_fit :
  forall (provider : Provider) (messages : ChatHistory)
         (systemMessageContent model temperature : JsString)
         (functions : option (list ChatCompletionFunctions)) (max : Z),
    messages <> [] ->
    approximateMaxChars model = Return max ->
    exists dropped kept : ChatHistory,
      messages = dropped ++ kept /\
      trace (getChatCompletion provider messages systemMessageContent model
               temperature functions)
      = [CalledCreateChatCompletion
           (request_for model temperature
              (system_message systemMessageContent :: kept) functions)] /\
      forall (earlier : ChatHistory) (m : ChatMessage),
        dropped = earlier ++ [m] ->
        (inject_Z max * FRACTION_OF_MAX_CHARS_TO_USE
         <= inject_Z (message_chars (system_message systemMessageContent)
                      + functions_chars functions
                      + (message_chars m + total_chars kept)))%Q.
Proof.
  intros provider messages systemMessageContent model temperature functions max
         Hne Hmodel.
  destruct (promptMessages_for_maximal
              (inject_Z max * FRACTION_OF_MAX_CHARS_TO_USE)%Q messages
              (system_message systemMessageContent) functions Hne)
    as (dropped & kept & Hsplit & _ & Hprompt & Hfull).
  exists dropped, kept. split; [exact Hsplit|]. split; [|exact Hfull].
  eapply getChatCompletion_trace; eassumption.
Qed.

(** X6: a history that fits is sent whole: when the serialized sizes of
    the system message, the function list and all messages add up to less
    than [maxChars], the request carries the system message followed by the
    entire history. *)
Theorem history_that_fits_is_sent_whole :
  forall (provider : Provider) (messages : ChatHistory)
         (systemMessageContent model temperature : JsString)
         (functions : option (list ChatCompletionFunctions)) (max : Z),
    messages <> [] ->
    approximateMaxChars model = Return max ->
    (inject_Z (message_chars (system_message systemMessageContent)
               + functions_chars functions + total_chars messages)
     < inject_Z max * FRACTION_OF_MAX_CHARS_TO_USE)%Q ->
    trace (getChatCompletion provider messages systemMessageContent model
             temperature functions)
    = [CalledCreateChatCompletion
         (request_for model temperature
            (system_message systemMessageContent :: messages) functions)].
Proof.
  intros provider messages systemMessageContent model temperature functions max
         Hne Hmodel Hfits.
  destruct (promptMessages_for_maximal
              (inject_Z max * FRACTION_OF_MAX_CHARS_TO_USE)%Q messages
              (system_message systemMessageContent) functions Hne)
    as (dropped & kept & Hsplit & _ & Hprompt & Hfull).
  assert (Hnone : dropped = []).
  { destruct dropped as [|d ds]; [reflexivity|].
    assert (Hsome : d :: ds <> []) by discriminate.
    destruct (exists_last Hsome) as (earlier & m & Hlast).
    exfalso. specialize (Hfull earlier m Hlast).
    apply (Qlt_not_le _ _ Hfits). eapply Qle_trans; [exact Hfull|].
    rewrite <- Zle_Qle. rewrite Hsplit, Hlast, <- app_assoc, !total_chars_app.
    cbn [total_chars app]. pose proof (total_chars_nonneg earlier). lia. }
  rewrite Hnone in Hsplit. cbn [app] in Hsplit. subst kept.
  eapply getChatCompletion_trace; eassumption.
Qed.

Lemma window_drops_only_what_does_not_fit_witness :
  exists dropped kept : ChatHistory,
    long_history = dropped ++ kept /\
    trace (getChatCompletion answering_provider long_history (js "You are terse.")
             (js "gpt-4") (js "0") None)
    = [CalledCreateChatCompletion
         (request_for (js "gpt-4") (js "0")
            (system_message (js "You are terse.") :: kept) None)] /\
    forall (earlier : ChatHistory) (m : ChatMessage),
      dropped = earlier ++ [m] ->
      (inject_Z 32000 * FRACTION_OF_MAX_CHARS_TO_USE
       <= inject_Z (message_chars (system_message (js "You are terse."))
                    + functions_chars None
                    + (message_chars m + total_chars kept)))%Q.
Proof.
  apply (window_drops_only_what_does_not_fit answering_provider long_history
           (js "You are terse.") (js "gpt-4") (js "0") None 32000%Z).
  - discriminate.
  - reflexivity.
Defined.

Lemma history_that_fits_is_sent_whole_witness :
  trace (getChatCompletion answering_provider short_history (js "You are terse.")
           (js "gpt-4") (js "0") None)
  = [CalledCreateChatCompletion
       (request_for (js "gpt-4") (js "0")
          (system_message (js "You are terse.") :: short_history) None)].
Proof.
  apply (history_that_fits_is_sent_whole answering_provider short_history
           (js "You are terse.") (js "gpt-4") (js "0") None 32000%Z).
  - discriminate.
  - reflexivity.
  - vm_compute. reflexivity.
Defined.


(** ** Failures of the completion functions *)

Lemma jseqb_neq (a b : JsString) : a <> b -> jseqb a b = false.
Proof.
  intros Hne. destruct (jseqb a b) eqn:H; [|reflexivity].
  apply jseqb_eq in H. contradiction.
Qed.

(** X7: for every model other than gpt-4, whatever the history,
    [getChatCompletion] fails with the unknown-model error and makes no
    provider call. *)
Theorem getChatCompletion_unknown_model_fails :
  forall (provider : Provider) (messages : ChatHistory)
         (systemMessageContent model temperature : JsString)
         (functions : option (list ChatCompletionFunctions)),
    model <> js "gpt-4" ->
    getChatCompletion provider messages systemMessageContent model temperature
      functions
    = ([], Throw (ThrownError (Error (js "unknown model: " ++ model)))).
Proof.
  intros provider messages systemMessageContent model temperature functions Hne.
  unfold getChatCompletion, approximateMaxChars.
  rewrite (jseqb_neq _ _ Hne). reflexivity.
Qed.

Lemma getChatCompletion_unknown_model_fails_witness :
  getChatCompletion answering_provider short_history (js "You are terse.")
    (js "gpt-4-turbo") (js "0") None
  = ([], Throw (ThrownError (Error (js "unknown model: " ++ js "gpt-4-turbo")))).
Proof.
  apply (getChatCompletion_unknown_model_fails answering_provider short_history
           (js "You are terse.") (js "gpt-4-turbo") (js "0") None).
  discriminate.
Defined.

Lemma extend_plain_error (message : JsString)
    (openaiRequest : CreateChatCompletionRequest) :
  extendAndThrowOpenAIError (ThrownError (Error message)) openaiRequest
  = ThrownError
      (Error (js "error calling OpenAI: " ++ message ++ LF
              ++ js "Here was the request:" ++ LF
              ++ JSON_stringify (request_to_json openaiRequest))).
Proof. reflexivity. Qed.

Lemma extend_axios_error (message : JsString) (payload : Json)
    (openaiRequest : CreateChatCompletionRequest) :
  extendAndThrowOpenAIError (axios_error message payload) openaiRequest
  = ThrownError
      (Error (js "error calling OpenAI: " ++ message ++ js ": "
              ++ JSON_stringify payload ++ LF
              ++ js "Here was the request:" ++ LF
              ++ JSON_stringify (request_to_json openaiRequest))).
Proof.
  unfold extendAndThrowOpenAIError, axios_error.
  cbn -[JSON_stringify request_to_json app].
  f_equal. f_equal. rewrite <- !app_assoc. reflexivity.
Qed.

(** X8: when the provider call fails with a plain [Error],
    [getChatCompletion] makes that one call, does not retry, and throws an
    [Error] whose message is the prefix, the original message and the
    serialized request. *)
Theorem getChatCompletion_provider_failure :
  forall (provider : Provider) (messages : ChatHistory)
         (systemMessageContent model temperature : JsString)
         (functions : option (list ChatCompletionFunctions)) (max : Z)
         (message : JsString),
    messages <> [] ->
    approximateMaxChars model = Return max ->
    (forall request, provider request = Throw (ThrownError (Error message))) ->
    exists request : CreateChatCompletionRequest,
      getChatCompletion provider messages systemMessageContent model temperature
        functions
      = ([CalledCreateChatCompletion request],
         Throw (ThrownError
                  (Error (js "error calling OpenAI: " ++ message ++ LF
                          ++ js "Here was the request:" ++ LF
                          ++ JSON_stringify (request_to_json request))))).
Proof.
  intros provider messages systemMessageContent model temperature functions max
         message Hne Hmodel Hfails.
  destruct (promptMessages_for_window
              (inject_Z max * FRACTION_OF_MAX_CHARS_TO_USE)%Q messages
              (system_message systemMessageContent) functions Hne)
    as (start & latest & _ & _ & _ & Hprompt & _).
  eexists.
  rewrite (getChatCompletion_after_window _ _ _ _ _ _ _ _ Hmodel Hprompt).
  unfold await_createChatCompletion. rewrite ebind_emit, Hfails.
  rewrite extend_plain_error. reflexivity.
Qed.

Lemma getChatCompletion_provider_failure_witness :
  exists request : CreateChatCompletionRequest,
    getChatCompletion (failing_provider (js "socket hang up")) short_history
      (js "You are terse.") (js "gpt-4") (js "0") None
    = ([CalledCreateChatCompletion request],
       Throw (ThrownError
                (Error (js "error calling OpenAI: " ++ js "socket hang up" ++ LF
                        ++ js "Here was the request:" ++ LF
                        ++ JSON_stringify (request_to_json request))))).
Proof.
  apply (getChatCompletion_provider_failure (failing_provider (js "socket hang up"))
           short_history (js "You are terse.") (js "gpt-4") (js "0") None 32000%Z
           (js "socket hang up")).
  - discriminate.
  - reflexivity.
  - intros request. reflexivity.
Defined.

(** X9: when the provider call of [getCompletionUsingChatModel] fails
    with an axios error that carries a response, the thrown message also
    holds the serialized [response.data.error], between the original message
    and the request; this holds for every model. *)
Theorem getCompletionUsingChatModel_axios_failure :
  forall (provider : Provider) (systemMessage prompt model temperature : JsString)
         (message : JsString) (payload : Json),
    provider (request_for model temperature
                [system_message systemMessage; user_message prompt] None)
    = Throw (axios_error message payload) ->
    getCompletionUsingChatModel provider systemMessage prompt model temperature
    = ([CalledCreateChatCompletion
          (request_for model temperature
             [system_message systemMessage; user_message prompt] None)],
       Throw (ThrownError
                (Error (js "error calling OpenAI: " ++ message ++ js ": "
                        ++ JSON_stringify payload ++ LF
                        ++ js "Here was the request:" ++ LF
                        ++ JSON_stringify
                             (request_to_json
                                (request_for model temperature
                                   [system_message systemMessage;
                                    user_message prompt] None)))))).
Proof.
  intros provider systemMessage prompt model temperature message payload Hfails.
  rewrite getCompletionUsingChatModel_unfold.
  unfold await_createChatCompletion. rewrite ebind_emit, Hfails.
  rewrite extend_axios_error. reflexivity.
Qed.

(** X10: when the awaited response is an object with [choices] at its top
    level, [getChatCompletion] returns the message of the first choice and
    of no other: [role] and [function_call] as they are, [content] as it is
    when truthy and the empty string otherwise. *)
Theorem getChatCompletion_returns_first_top_level_choice :
  forall (provider : Provider) (messages : ChatHistory)
         (systemMessageContent model temperature : JsString)
         (functions : option (list ChatCompletionFunctions)) (max : Z)
         (body choice members : list (JsString * Json)) (others : list Json),
    messages <> [] ->
    approximateMaxChars model = Return max ->
    (forall request, provider request = Return (Some (JObject body))) ->
    obj_get (js "choices") body = Some (JArray (JObject choice :: others)) ->
    obj_get (js "message") choice = Some (JObject members) ->
    outcome (getChatCompletion provider messages systemMessageContent model
               temperature functions)
    = Return {| rm_role := obj_get (js "role") members;
                rm_content :=
                  if truthy (obj_get (js "content") members)
                  then obj_get (js "content") members
                  else Some (JString []);
                rm_function_call := obj_get (js "function_call") members |}.
Proof.
  intros provider messages systemMessageContent model temperature functions max
         body choice members others Hne Hmodel Hanswers Hchoices Hmessage.
  destruct (promptMessages_for_window
              (inject_Z max * FRACTION_OF_MAX_CHARS_TO_USE)%Q messages
              (system_message systemMessageContent) functions Hne)
    as (start & latest & _ & _ & _ & Hprompt & _).
  rewrite (getChatCompletion_after_window _ _ _ _ _ _ _ _ Hmodel Hprompt).
  unfold await_createChatCompletion. rewrite ebind_emit, Hanswers.
  cbn [outcome snd ret ebind lift].
  rewrite (read_response_message_of_choices (Some (JObject body)) members);
    [reflexivity | reflexivity |].
  unfold first_choice_message. cbn [get bind]. rewrite Hchoices.
  cbn [get_index0 nth_error get bind]. rewrite Hmessage. reflexivity.
Qed.

Lemma getCompletionUsingChatModel_axios_failure_witness :
  getCompletionUsingChatModel
    (fun _ => Throw (axios_error (js "Request failed with status code 429")
                       (JObject [(js "message", JString (js "Rate limit"))])))
    (js "You are terse.") (js "2+2?") (js "gpt-3.5-turbo") (js "0.7")
  = ([CalledCreateChatCompletion
        (request_for (js "gpt-3.5-turbo") (js "0.7")
           [system_message (js "You are terse."); user_message (js "2+2?")] None)],
     Throw (ThrownError
              (Error (js "error calling OpenAI: "
                      ++ js "Request failed with status code 429" ++ js ": "
                      ++ JSON_stringify
                           (JObject [(js "message", JString (js "Rate limit"))])
                      ++ LF ++ js "Here was the request:" ++ LF
                      ++ JSON_stringify
                           (request_to_json
                              (request_for (js "gpt-3.5-turbo") (js "0.7")
                                 [system_message (js "You are terse.");
                                  user_message (js "2+2?")] None)))))).
Proof.
  apply (getCompletionUsingChatModel_axios_failure
           (fun _ => Throw (axios_error (js "Request failed with status code 429")
                              (JObject [(js "message", JString (js "Rate limit"))])))
           (js "You are terse.") (js "2+2?") (js "gpt-3.5-turbo") (js "0.7")
           (js "Request failed with status code 429")
           (JObject [(js "message", JString (js "Rate limit"))])).
  reflexivity.
Defined.

Lemma getChatCompletion_returns_first_top_level_choice_witness :
  outcome (getChatCompletion
             (stub_provider
                (JObject [(js "choices",
                           JArray [JObject [(js "message",
                                             JObject [(js "role",
                                                       JString (js "assistant"))])]])]))
             short_history (js "You are terse.") (js "gpt-4") (js "0") None)
  = Return {| rm_role := obj_get (js "role") [(js "role", JString (js "assistant"))];
              rm_content :=
                if truthy (obj_get (js "content")
                             [(js "role", JString (js "assistant"))])
                then obj_get (js "content") [(js "role", JString (js "assistant"))]
                else Some (JString []);
              rm_function_call :=
                obj_get (js "function_call")
                  [(js "role", JString (js "assistant"))] |}.
Proof.
  apply (getChatCompletion_returns_first_top_level_choice
           (stub_provider
              (JObject [(js "choices",
                         JArray [JObject [(js "message",
                                           JObject [(js "role",
                                                     JString (js "assistant"))])]])]))
           short_history (js "You are terse.") (js "gpt-4") (js "0") None 32000%Z
           [(js "choices",
             JArray [JObject [(js "message",
                               JObject [(js "role", JString (js "assistant"))])]])]
           [(js "message", JObject [(js "role", JString (js "assistant"))])]
           [(js "role", JString (js "assistant"))] []).
  - discriminate.
  - reflexivity.
  - intros request. reflexivity.
  - reflexivity.
  - reflexivity.
Defined.

(** X22: when the provider resolves to a falsy value,
    [getCompletionUsingChatModel] throws the validation error, whose message
    prints that value. *)
Theorem getCompletionUsingChatModel_falsy_response :
  forall (provider : Provider) (systemMessage prompt model temperature : JsString)
         (response : JsAny),
    provider (request_for model temperature
                [system_message systemMessage; user_message prompt] None)
    = Return response ->
    truthy response = false ->
    getCompletionUsingChatModel provider systemMessage prompt model temperature
    = ([CalledCreateChatCompletion
          (request_for model temperature
             [system_message systemMessage; user_message prompt] None)],
       Throw (ThrownError (Error
         (js "OpenAI response data validation error: " ++ LF
          ++ js "        ========" ++ LF
          ++ js "        response.data:" ++ LF
          ++ js "        " ++ LF
          ++ js "        "
          ++ match response with
             | Some value => JSON_stringify value
             | None => js "undefined"
             end ++ LF
          ++ js "        ")))).
Proof.
  intros provider systemMessage prompt model temperature response Hanswer Hfalsy.
  rewrite getCompletionUsingChatModel_unfold.
  unfold await_createChatCompletion. rewrite ebind_emit, Hanswer.
  cbn [trace outcome fst snd ret ebind lift].
  unfold read_completion_message, validateCreateChatCompletionResponse.
  rewrite Hfalsy. cbn [bind]. destruct response; reflexivity.
Qed.

Lemma getCompletionUsingChatModel_falsy_response_witness :
  getCompletionUsingChatModel (fun _ => Return undefined)
    (js "You are terse.") (js "2+2?") (js "gpt-4") (js "0")
  = ([CalledCreateChatCompletion
        (request_for (js "gpt-4") (js "0")
           [system_message (js "You are terse."); user_message (js "2+2?")] None)],
     Throw (ThrownError (Error
       (js "OpenAI response data validation error: " ++ LF
        ++ js "        ========" ++ LF
        ++ js "        response.data:" ++ LF
        ++ js "        " ++ LF
        ++ js "        "
        ++ match undefined with
           | Some value => JSON_stringify value
           | None => js "undefined"
           end ++ LF
        ++ js "        ")))).
Proof.
  apply (getCompletionUsingChatModel_falsy_response (fun _ => Return undefined)
           (js "You are terse.") (js "2+2?") (js "gpt-4") (js "0") undefined).
  - reflexivity.
  - reflexivity.
Defined.

(** X23: [getFunctionResult] sends the whole history as it is, for any
    model and with temperature 0, and a failure of the provider reaches the
    caller unchanged. *)
Theorem getFunctionResult_passes_failure_through :
  forall (provider : Provider) (messages : ChatHistory) (model : JsString)
         (functions : list ChatCompletionFunctions) (error : Thrown),
    provider (request_for model (js "0") messages (Some functions)) = Throw error ->
    getFunctionResult provider messages (Some model) functions
    = ([CalledCreateChatCompletion
          (request_for model (js "0") messages (Some functions))],
       Throw error).
Proof.
  intros provider messages model functions error Hfails.
  unfold getFunctionResult. rewrite ebind_emit.
  fold (request_for model (js "0") messages (Some functions)).
  rewrite Hfails. reflexivity.
Qed.

Lemma getFunctionResult_passes_failure_through_witness :
  getFunctionResult (failing_provider (js "socket hang up")) long_history
    (Some (js "gpt-3.5-turbo")) []
  = ([CalledCreateChatCompletion
        (request_for (js "gpt-3.5-turbo") (js "0") long_history (Some []))],
     Throw (ThrownError (Error (js "socket hang up")))).
Proof.
  apply (getFunctionResult_passes_failure_through
           (failing_provider (js "socket hang up")) long_history
           (js "gpt-3.5-turbo") [] (ThrownError (Error (js "socket hang up")))).
  reflexivity.
Defined.

(** ** More on dispatch *)

Lemma find_none_of_all_false {A : Type} (f : A -> bool) (l : list A) :
  (forall x, In x l -> f x = false) -> List.find f l = None.
Proof.
  induction l as [|x l IH]; intros H; cbn [List.find]; [reflexivity|].
  rewrite (H x (or_introl eq_refl)). apply IH. intros y Hy. apply H. now right.
Qed.

Lemma find_first_match {A : Type} (f : A -> bool) (before after : list A) (x : A) :
  (forall y, In y before -> f y = false) -> f x = true ->
  List.find f (before ++ x :: after) = Some x.
Proof.
  induction before as [|y before IH]; intros Hbefore Hx; cbn [List.find app].
  - now rewrite Hx.
  - rewrite (Hbefore y (or_introl eq_refl)). apply IH; [|exact Hx].
    intros z Hz. apply Hbefore. now right.
Qed.

Lemma name_is_false (n : option JsString) (f : GptFunction) :
  n <> Some (gf_name f) -> name_is n f = false.
Proof.
  intros Hne. destruct n as [n|]; [|reflexivity]. cbn [name_is].
  destruct (jseqb (gf_name f) n) eqn:H; [|reflexivity].
  apply jseqb_eq in H. subst n. contradiction.
Qed.

(** X11: when no registered function bears the requested name (also when
    the call has no name), [dispatch] returns [FunctionCallInvalid] naming
    the unknown function, whatever the arguments, and calls nothing. *)
Theorem dispatch_unknown_function :
  forall (functions : list GptFunction) (chatState : ChatState)
         (call : FunctionCall),
    requests_call chatState call ->
    (forall f : GptFunction, In f functions -> fc_name call <> Some (gf_name f)) ->
    dispatch functions chatState
    = ([], Return (FunctionCallInvalid
                     (js "unknown function " ++ template (fc_name call)))).
Proof.
  intros functions chatState call Hcall Hnone.
  rewrite (dispatch_on_call _ _ _ Hcall).
  rewrite find_none_of_all_false; [reflexivity|].
  intros f Hf. apply name_is_false. now apply Hnone.
Qed.

Lemma dispatch_unknown_function_witness :
  dispatch [echo_function; noop_function]
    (chat_requesting None (Some (js "{}")))
  = ([], Return (FunctionCallInvalid (js "unknown function " ++ template None))).
Proof.
  apply (dispatch_unknown_function [echo_function; noop_function]
           (chat_requesting None (Some (js "{}")))
           {| fc_name := None; fc_arguments := Some (js "{}") |}).
  - eexists. split; reflexivity.
  - intros f _. discriminate.
Defined.

(** X12: among functions of the same name the first registered one is
    used: functions registered after it, and differently named ones before
    it, do not change what [dispatch] does. *)
Theorem dispatch_first_match_shadows :
  forall (before after : list GptFunction) (f : GptFunction)
         (chatState : ChatState) (call : FunctionCall),
    requests_call chatState call ->
    fc_name call = Some (gf_name f) ->
    (forall g : GptFunction, In g before -> gf_name g <> gf_name f) ->
    dispatch (before ++ f :: after) chatState = dispatch [f] chatState.
Proof.
  intros before after f chatState call Hcall Hname Hbefore.
  rewrite !(dispatch_on_call _ _ _ Hcall), Hname.
  rewrite (find_first_match _ before after f).
  - cbn [List.find name_is]. now rewrite jseqb_refl.
  - intros g Hg. apply name_is_false. intros H. inversion H as [Heq].
    apply (Hbefore g Hg). now symmetry.
  - cbn [name_is]. apply jseqb_refl.
Qed.

Lemma dispatch_first_match_shadows_witness :
  dispatch ([noop_function] ++ echo_function :: [echo_impostor])
    (chat_requesting (Some (js "Echo")) (Some (js "{}")))
  = dispatch [echo_function]
      (chat_requesting (Some (js "Echo")) (Some (js "{}"))).
Proof.
  apply (dispatch_first_match_shadows [noop_function] [echo_impostor] echo_function
           (chat_requesting (Some (js "Echo")) (Some (js "{}")))
           {| fc_name := Some (js "Echo"); fc_arguments := Some (js "{}") |}).
  - eexists. split; reflexivity.
  - reflexivity.
  - intros g [<-|[]]. discriminate.
Defined.

(** X13: arguments the validator rejects give [FunctionCallInvalid];
    the body is not called, and the message ends with the text of the
    object [validate] returns, [[object Object]]. *)
Theorem dispatch_rejected_arguments :
  forall (functions : list GptFunction) (chatState : ChatState)
         (call : FunctionCall) (func : GptFunction) (args : Json)
         (ajv : Json -> Outcome JsAny) (valid : JsAny),
    requests_call chatState call ->
    List.find (name_is (fc_name call)) functions = Some func ->
    JSON_parse (or_empty_object (fc_arguments call)) = Some args ->
    ajvValidateFunction func = Some ajv ->
    ajv args = Return valid ->
    truthy valid = false ->
    dispatch functions chatState
    = ([CalledValidate (gf_name func) args],
       Return (FunctionCallInvalid
                 (js "invalid arguments for function " ++ template (fc_name call)
                  ++ js ": [object Object]"))).
Proof.
  intros functions chatState call func args ajv valid
         Hcall Hfind Hparse Hajv Hvalid Hfalsy.
  rewrite (dispatch_on_call _ _ _ Hcall), Hfind, Hparse.
  unfold validate. rewrite Hajv, Hvalid, ebind_emit, ebind_lift_return, Hfalsy.
  reflexivity.
Qed.

Lemma dispatch_rejected_arguments_witness :
  dispatch [strict_function]
    (chat_requesting (Some (js "Strict")) (Some (js "[1, 2]")))
  = ([CalledValidate (js "Strict") (JArray [JNumber (js "1"); JNumber (js "2")])],
     Return (FunctionCallInvalid
               (js "invalid arguments for function " ++ template (Some (js "Strict"))
                ++ js ": [object Object]"))).
Proof.
  apply (dispatch_rejected_arguments [strict_function]
           (chat_requesting (Some (js "Strict")) (Some (js "[1, 2]")))
           {| fc_name := Some (js "Strict"); fc_arguments := Some (js "[1, 2]") |}
           strict_function (JArray [JNumber (js "1"); JNumber (js "2")])
           (fun _ => Return (Some (JBool false))) (Some (JBool false))).
  - eexists. split; reflexivity.
  - reflexivity.
  - vm_compute. reflexivity.
  - reflexivity.
  - reflexivity.
  - reflexivity.
Defined.

(** X14: once the arguments are accepted and the function is not a
    no-op, the body is called once and its outcome decides how [dispatch]
    ends.  A returned value is [FunctionSucceeded]; an [Error] thrown or
    rejected is [FunctionThrew] with that error; any other thrown value is
    passed to [JSON.stringify]: the text it returns becomes the message of
    the [Error] in [FunctionThrew] (empty when it returns [undefined]), and
    what it throws leaves [dispatch] as an exception.  Stated for arguments
    that [JSON_parse] builds as [JSON.parse] does. *)
Theorem dispatch_captures_body_outcome :
  forall (functions : list GptFunction) (chatState : ChatState)
         (call : FunctionCall) (func : GptFunction) (args : Json),
    requests_call chatState call ->
    List.find (name_is (fc_name call)) functions = Some func ->
    JSON_parse (or_empty_object (fc_arguments call)) = Some args ->
    parsed_as_written args = true ->
    outcome (validate func args) = Return undefined ->
    isNoOp func = false ->
    dispatch functions chatState
    = ([CalledValidate (gf_name func) args; CalledDo (gf_name func) args],
       match do func chatState args with
       | Returns result => Return (FunctionSucceeded result)
       | ThrowsSync error | RejectsAsync error =>
           match error with
           | ThrownError e => Return (FunctionThrew e)
           | ThrownValue (Some value) =>
               Return (FunctionThrew (Error (JSON_stringify value)))
           | ThrownValue None => Return (FunctionThrew (Error []))
           | ThrownForeign _ (StringifyReturns (Some text)) =>
               Return (FunctionThrew (Error text))
           | ThrownForeign _ (StringifyReturns None) =>
               Return (FunctionThrew (Error []))
           | ThrownForeign _ (StringifyThrows t) => Throw t
           end
       end).
Proof.
  intros functions chatState call func args Hcall Hfind Hparse _ Hvalid Hbody.
  rewrite (dispatch_on_call _ _ _ Hcall), Hfind, Hparse.
  rewrite validate_split, Hvalid. cbn [ebind truthy undefined].
  rewrite Hbody, dispatch_do_step. unfold result_of_do.
  destruct (do func chatState args)
    as [result|[e|[value|]|props [[text|]|t]]|[e|[value|]|props [[text|]|t]]];
    reflexivity.
Qed.

Lemma dispatch_captures_body_outcome_witness :
  dispatch [bigint_thrower]
    (chat_requesting (Some (js "Count")) (Some weather_arguments))
  = ([CalledValidate (js "Count")
        (JObject [(js "where", JString (js "Chicago"));
                  (js "when", JString (js "today"))]);
      CalledDo (js "Count")
        (JObject [(js "where", JString (js "Chicago"));
                  (js "when", JString (js "today"))])],
     match do bigint_thrower
             (chat_requesting (Some (js "Count")) (Some weather_arguments))
             (JObject [(js "where", JString (js "Chicago"));
                       (js "when", JString (js "today"))]) with
     | Returns result => Return (FunctionSucceeded result)
     | ThrowsSync error | RejectsAsync error =>
         match error with
         | ThrownError e => Return (FunctionThrew e)
         | ThrownValue (Some value) =>
             Return (FunctionThrew (Error (JSON_stringify value)))
         | ThrownValue None => Return (FunctionThrew (Error []))
         | ThrownForeign _ (StringifyReturns (Some text)) =>
             Return (FunctionThrew (Error text))
         | ThrownForeign _ (StringifyReturns None) =>
             Return (FunctionThrew (Error []))
         | ThrownForeign _ (StringifyThrows t) => Throw t
         end
     end).
Proof.
  apply (dispatch_captures_body_outcome [bigint_thrower]
           (chat_requesting (Some (js "Count")) (Some weather_arguments))
           {| fc_name := Some (js "Count"); fc_arguments := Some weather_arguments |}
           bigint_thrower
           (JObject [(js "where", JString (js "Chicago"));
                     (js "when", JString (js "today"))])).
  - eexists. split; reflexivity.
  - reflexivity.
  - vm_compute. reflexivity.
  - reflexivity.
  - reflexivity.
  - reflexivity.
Defined.

(** X15: if every registered function has a validator that returns, and a
    body that throws or rejects only with values the catch block can turn
    into an [Error] (an [Error], or a value [JSON.stringify] does not throw
    on), then [dispatch] returns one of the three results for every chat
    state whose last message carries a function call, and makes at most two
    calls. *)
Theorem dispatch_returns_when_validators_return :
  forall (functions : list GptFunction) (chatState : ChatState)
         (call : FunctionCall),
    requests_call chatState call ->
    Forall (fun f : GptFunction =>
              (exists ajv : Json -> Outcome JsAny,
                  ajvValidateFunction f = Some ajv /\
                  forall args : Json, exists v : JsAny, ajv args = Return v) /\
              (forall (args : Json) (t : Thrown),
                  do f chatState args = ThrowsSync t \/
                  do f chatState args = RejectsAsync t ->
                  catchable t))
           functions ->
    exists r : DispatchResult,
      outcome (dispatch functions chatState) = Return r /\
      (List.length (trace (dispatch functions chatState)) <= 2)%nat.
Proof.
  intros functions chatState call Hcall Hall.
  rewrite (dispatch_on_call _ _ _ Hcall).
  destruct (List.find _ functions) as [func|] eqn:Hfind;
    [|eexists; split; [reflexivity | cbn; lia]].
  destruct (JSON_parse _) as [args|]; [|eexists; split; [reflexivity | cbn; lia]].
  apply find_some in Hfind. destruct Hfind as [Hin _].
  rewrite Forall_forall in Hall.
  destruct (Hall func Hin) as ((ajv & Hajv & Hreturns) & Hcatch).
  destruct (Hreturns args) as (v & Hv).
  unfold validate. rewrite Hajv, Hv, ebind_emit, ebind_lift_return.
  destruct (negb (truthy v)); cbn [trace outcome fst snd ret ebind truthy undefined].
  - eexists; split; [reflexivity | cbn; lia].
  - destruct (isNoOp func); [eexists; split; [reflexivity | cbn; lia]|].
    rewrite dispatch_do_step. unfold result_of_do.
    pose proof (Hcatch args) as Hthrown.
    destruct (do func chatState args) as [result|error|error].
    + eexists; split; [reflexivity | cbn; lia].
    + specialize (Hthrown error (or_introl eq_refl)).
      destruct error as [e|value|props [text|t]]; cbn in Hthrown |- *;
        try contradiction; eexists; (split; [reflexivity | cbn; lia]).
    + specialize (Hthrown error (or_intror eq_refl)).
      destruct error as [e|value|props [text|t]]; cbn in Hthrown |- *;
        try contradiction; eexists; (split; [reflexivity | cbn; lia]).
Qed.

Lemma dispatch_returns_when_validators_return_witness :
  exists r : DispatchResult,
    outcome (dispatch [echo_function; strict_function; echo_impostor]
               (chat_requesting (Some (js "Strict")) None))
    = Return r /\
    (List.length
       (trace (dispatch [echo_function; strict_function; echo_impostor]
                 (chat_requesting (Some (js "Strict")) None))) <= 2)%nat.
Proof.
  apply (dispatch_returns_when_validators_return
           [echo_function; strict_function; echo_impostor]
           (chat_requesting (Some (js "Strict")) None)
           {| fc_name := Some (js "Strict"); fc_arguments := None |}).
  - eexists. split; reflexivity.
  - repeat constructor;
      try (eexists; (split; [reflexivity|]); intros args; eexists; reflexivity);
      intros args t [H|H]; inversion H; exact I.
Defined.

(** X16: on an empty chat history, and on a history whose last message
    has no function call, [dispatch] throws a [TypeError] and calls
    nothing. *)
Theorem dispatch_without_function_call_throws :
  forall (functions : list GptFunction) (chatState : ChatState),
    chatHistory chatState = [] \/
    (exists (earlier : ChatHistory) (m : ChatMessage),
        chatHistory chatState = earlier ++ [m] /\ function_call m = None) ->
    exists key : JsString,
      dispatch functions chatState
      = ([], Throw (cannot_read (js "undefined") key)).
Proof.
  intros functions chatState [Hempty | (earlier & m & Hsplit & Hnone)];
    unfold dispatch.
  - rewrite Hempty. eexists. reflexivity.
  - destruct (latest_message _ earlier m Hsplit) as (Hlast & _).
    rewrite Hlast, Hnone. eexists. reflexivity.
Qed.

Lemma dispatch_without_function_call_throws_witness :
  exists key : JsString,
    dispatch [echo_function] {| chatHistory := short_history |}
    = ([], Throw (cannot_read (js "undefined") key)).
Proof.
  apply (dispatch_without_function_call_throws [echo_function]
           {| chatHistory := short_history |}).
  right. exists (firstn 2 short_history), (user_message (js "And 3+3?")).
  split; reflexivity.
Defined.

(** ** formatForGpt *)

(** X17: [formatForGpt] lists every registered function, in order, with
    its name and parameters unchanged, whether enabled or not; the
    description is the function's own when its name is in the set and is
    prefixed with [DEPRECATED: ] when it is not. *)
Theorem formatForGpt_keeps_every_function :
  forall (functions : list GptFunction) (enabledFunctionNames : list JsString),
    List.map fn_name (formatForGpt functions enabledFunctionNames)
    = List.map gf_name functions /\
    List.map fn_parameters (formatForGpt functions enabledFunctionNames)
    = List.map (fun f => Some (parameters f)) functions /\
    Forall2
      (fun (f : GptFunction) (entry : ChatCompletionFunctions) =>
         (In (gf_name f) enabledFunctionNames ->
          fn_description entry = Some (description f)) /\
         (~ In (gf_name f) enabledFunctionNames ->
          fn_description entry = Some (js "DEPRECATED: " ++ description f)))
      functions (formatForGpt functions enabledFunctionNames).
Proof.
  intros functions enabledFunctionNames. unfold formatForGpt.
  rewrite !map_map. split; [reflexivity|]. split; [reflexivity|].
  induction functions as [|f functions IH]; cbn [List.map]; constructor;
    [|exact IH].
  cbn [fn_description]. unfold has.
  destruct (existsb (jseqb (gf_name f)) enabledFunctionNames) eqn:Hhas.
  - split; [reflexivity|]. intros Hnot. exfalso. apply Hnot.
    apply existsb_exists in Hhas. destruct Hhas as (n & Hn & Heq).
    apply jseqb_eq in Heq. now subst n.
  - split; [|reflexivity]. intros Hin. exfalso.
    assert (Htrue : existsb (jseqb (gf_name f)) enabledFunctionNames = true).
    { apply existsb_exists. exists (gf_name f). split; [exact Hin|].
      apply jseqb_refl. }
    congruence.
Qed.

Lemma find_by_name_of_member (functions : list GptFunction) (f : GptFunction) :
  In f functions ->
  exists func : GptFunction,
    List.find (name_is (Some (gf_name f))) functions = Some func /\
    gf_name func = gf_name f.
Proof.
  induction functions as [|g functions IH]; intros Hin; [contradiction|].
  cbn [List.find name_is].
  destruct (jseqb (gf_name g) (gf_name f)) eqn:Hg.
  - exists g. split; [reflexivity|]. now apply jseqb_eq.
  - destruct Hin as [->|Hin]; [now rewrite jseqb_refl in Hg|]. now apply IH.
Qed.

(** X18: every function [formatForGpt] lists, deprecated or not, is one
    [dispatch] resolves: a call that names it never ends in the
    unknown-function result. *)
Theorem listed_functions_are_dispatched :
  forall (functions : list GptFunction) (enabledFunctionNames : list JsString)
         (entry : ChatCompletionFunctions) (chatState : ChatState)
         (call : FunctionCall),
    In entry (formatForGpt functions enabledFunctionNames) ->
    requests_call chatState call ->
    fc_name call = Some (fn_name entry) ->
    forall text : JsString,
      outcome (dispatch functions chatState)
      <> Return (FunctionCallInvalid (js "unknown function " ++ text)).
Proof.
  intros functions enabledFunctionNames entry chatState call Hin Hcall Hname text.
  unfold formatForGpt in Hin. apply in_map_iff in Hin.
  destruct Hin as (f & <- & Hf). cbn [fn_name] in Hname.
  destruct (find_by_name_of_member functions f Hf) as (func & Hfind & _).
  rewrite (dispatch_on_call _ _ _ Hcall), Hname, Hfind.
  destruct (JSON_parse _) as [args|]; [|cbn; intros H; inversion H].
  rewrite validate_split.
  destruct (outcome (validate func args)) as [v|t]; cbn [ebind];
    [|cbn; discriminate].
  destruct (truthy v); [cbn; intros H; inversion H|].
  destruct (isNoOp func); [cbn; discriminate|].
  rewrite dispatch_do_step. cbn [app outcome snd]. unfold result_of_do.
  destruct (do func chatState args) as [result|error|error];
    [cbn; discriminate| |]; destruct (as_Error error); cbn; discriminate.
Qed.

Lemma listed_functions_are_dispatched_witness :
  dispatch [echo_function; noop_function]
    (chat_requesting (Some (js "Done")) None)
  = ([CalledValidate (js "Done") (JObject [])],
     Return (FunctionSucceeded (Some JNull))) /\
  forall text : JsString,
    outcome (dispatch [echo_function; noop_function]
               (chat_requesting (Some (js "Done")) None))
    <> Return (FunctionCallInvalid (js "unknown function " ++ text)).
Proof.
  split; [reflexivity|].
  apply (listed_functions_are_dispatched [echo_function; noop_function] []
           {| fn_name := js "Done";
              fn_description :=
                Some (js "DEPRECATED: " ++ js "The task is complete");
              fn_parameters := Some (JObject []) |}
           (chat_requesting (Some (js "Done")) None)
           {| fc_name := Some (js "Done"); fc_arguments := None |}).
  - right. left. reflexivity.
  - eexists. split; reflexivity.
  - reflexivity.
Defined.

(** ** The debug printers *)

(** X19: in the one-line form of a message the content takes its first
    50 code units, plus three for the ellipsis when it is longer: the line
    is at most 53 code units longer than the line of the same message
    without content. *)
Theorem chatMessageDebugOneLine_length :
  forall m : ChatMessage,
    List.length (chatMessageDebugOneLine m)
    = (List.length (chatMessageDebugOneLine (without_content m))
       + match content m with
         | Some c =>
             Nat.min 50 (List.length c)
             + (if (50 <? List.length c)%nat then 3 else 0)
         | None => 0
         end)%nat /\
    (List.length (chatMessageDebugOneLine m)
     <= List.length (chatMessageDebugOneLine (without_content m)) + 53)%nat.
Proof.
  intros m.
  assert (Heq : List.length (chatMessageDebugOneLine m)
    = (List.length (chatMessageDebugOneLine (without_content m))
       + match content m with
         | Some c =>
             Nat.min 50 (List.length c)
             + (if (50 <? List.length c)%nat then 3 else 0)
         | None => 0
         end)%nat).
  { unfold chatMessageDebugOneLine, without_content.
    cbn [role content name function_call].
    destruct (content m) as [[|c r]|]; repeat rewrite length_app.
    - change (50 <? List.length (@nil N))%nat with false. cbn [List.length]. lia.
    - rewrite length_firstn.
      destruct (50 <? List.length (c :: r))%nat;
        [change (List.length (js "...")) with 3%nat|]; cbn [List.length]; lia.
    - cbn [List.length]. lia. }
  split; [exact Heq|]. rewrite Heq.
  destruct (content m) as [c|]; [|lia].
  destruct (50 <? List.length c)%nat; lia.
Qed.

(** X20: the concise form of a history is the concatenation of the
    concise forms of its parts. *)
Theorem chatHistoryDebugConcise_app :
  forall h1 h2 : ChatHistory,
    chatHistoryDebugConcise (h1 ++ h2)
    = chatHistoryDebugConcise h1 ++ chatHistoryDebugConcise h2.
Proof.
  intros h1 h2. unfold chatHistoryDebugConcise.
  now rewrite map_app, concat_app.
Qed.

(** X21: the very concise form never fails and reports the number of
    messages and the last two of them: [n/a] twice for the empty history,
    [n/a] and the message for a single one, the last two messages
    otherwise, whatever comes before them. *)
Theorem chatHistoryDebugVeryConcise_reports_last_two :
  (chatHistoryDebugVeryConcise []
   = Return (js "Number of messages: 0" ++ LF
             ++ js "[n-2]: n/a" ++ LF
             ++ js "[n-1]: n/a" ++ LF)) /\
  (forall m : ChatMessage,
      chatHistoryDebugVeryConcise [m]
      = Return (js "Number of messages: 1" ++ LF
                ++ js "[n-2]: n/a" ++ LF
                ++ js "[n-1]: " ++ chatMessageDebugOneLine m ++ LF)) /\
  (forall (earlier : ChatHistory) (a b : ChatMessage),
      chatHistoryDebugVeryConcise (earlier ++ [a; b])
      = Return (js "Number of messages: "
                ++ nat_to_js (List.length earlier + 2) ++ LF
                ++ js "[n-2]: " ++ chatMessageDebugOneLine a ++ LF
                ++ js "[n-1]: " ++ chatMessageDebugOneLine b ++ LF)).
Proof.
  split; [reflexivity|]. split; [intros m; reflexivity|].
  intros earlier a b. unfold chatHistoryDebugVeryConcise, debug_line_at.
  rewrite length_app. cbn [List.length].
  replace (1 <? List.length earlier + 2)%nat with true
    by (symmetry; apply Nat.ltb_lt; lia).
  replace (0 <? List.length earlier + 2)%nat with true
    by (symmetry; apply Nat.ltb_lt; lia).
  replace (Z.of_nat (List.length earlier + 2) - 2)%Z
    with (Z.of_nat (List.length earlier)) by lia.
  replace (Z.of_nat (List.length earlier + 2) - 1)%Z
    with (Z.of_nat (S (List.length earlier))) by lia.
  rewrite !index_of_nat.
  rewrite nth_error_app2, Nat.sub_diag by lia.
  rewrite nth_error_app2 by lia.
  replace (S (List.length earlier) - List.length earlier)%nat with 1%nat by lia.
  reflexivity.
Qed.

